(** * Resilient poll-and-publish sidecar: a shallow embedding

    The development embeds the Python sources

      - [scripts/public_ip.py]   (store connection, IP probe, publish pipeline, poll loop),
      - [scripts/current_time.py] (the same store connection and publish pipeline),
      - [whatsmyip.py] and [scripts/whatsmyip.py] (the [IPMonitor] probe),

    as functions in a small state-and-exception monad.  The outside world (the
    lookup endpoints, the Redis server, the process environment) is an explicit
    [Environment]: every I/O call asks it for a reply, indexed by the number of
    I/O calls made so far, so the statements below hold for every behaviour of
    the network and of the store. *)

From Stdlib Require Import String Ascii List Bool Arith ZArith Lia.
Import ListNotations.
Open Scope string_scope.
Open Scope list_scope.
Open Scope nat_scope.

(** ** Python primitives used by the scripts *)

Module Py.

(** [str.isspace] on the code points below 256. *)
Definition is_space (c : ascii) : bool :=
  let n := nat_of_ascii c in
  ((9 <=? n) && (n <=? 13)) || ((28 <=? n) && (n <=? 32))
  || (n =? 133) || (n =? 160).

Fixpoint lstrip (s : string) : string :=
  match s with
  | EmptyString => EmptyString
  | String c rest => if is_space c then lstrip rest else s
  end.

Fixpoint rstrip (s : string) : string :=
  match s with
  | EmptyString => EmptyString
  | String c rest =>
      match rstrip rest with
      | EmptyString => if is_space c then EmptyString else String c EmptyString
      | r => String c r
      end
  end.

(** [s.strip()] *)
Definition strip (s : string) : string := rstrip (lstrip s).

(** [s.split(sep)] for a one-character separator: never the empty list. *)
Fixpoint split (sep : ascii) (s : string) : list string :=
  match s with
  | EmptyString => [EmptyString]
  | String c rest =>
      if Ascii.eqb c sep then EmptyString :: split sep rest
      else match split sep rest with
           | [] => [String c EmptyString]
           | field :: fields => String c field :: fields
           end
  end.

(** Truthiness of [str] and of [Optional[str]]. *)
Definition str_truthy (s : string) : bool :=
  match s with EmptyString => false | _ => true end.

Definition truthy (o : option string) : bool :=
  match o with None => false | Some s => str_truthy s end.

(** Truthiness of an optional object reference ([None] or a client object). *)
Definition is_some {A : Type} (o : option A) : bool :=
  match o with None => false | Some _ => true end.

(** [a != b] on [Optional[str]]. *)
Definition opt_str_eqb (a b : option string) : bool :=
  match a, b with
  | None, None => true
  | Some x, Some y => String.eqb x y
  | _, _ => false
  end.

Definition digit_value (c : ascii) : option Z :=
  let n := nat_of_ascii c in
  if (48 <=? n) && (n <=? 57) then Some (Z.of_nat (n - 48)) else None.

(** Digits with single underscores between them, as [int] accepts. *)
Fixpoint parse_digits (s : string) (acc : Z) (after_digit : bool) : option Z :=
  match s with
  | EmptyString => if after_digit then Some acc else None
  | String c rest =>
      match digit_value c with
      | Some d => parse_digits rest (10 * acc + d)%Z true
      | None =>
          if Ascii.eqb c "_"%char && after_digit
          then parse_digits rest acc false
          else None
      end
  end.

(** [int(s)]: [None] stands for [ValueError]. *)
Definition int (s : string) : option Z :=
  match strip s with
  | String "+"%char rest => parse_digits rest 0%Z false
  | String "-"%char rest => option_map Z.opp (parse_digits rest 0%Z false)
  | body => parse_digits body 0%Z false
  end.

End Py.

(** ** Exceptions *)

Inductive Exn : Type :=
| Timeout                (* requests.Timeout *)
| RequestException       (* requests.RequestException, not a timeout *)
| RedisConnectionError   (* redis.ConnectionError *)
| ValueError
| AttributeError
| OtherException         (* any other subclass of Exception *)
| KeyboardInterrupt.     (* a BaseException that is not an Exception *)

Definition is_Timeout (e : Exn) : bool :=
  match e with Timeout => true | _ => false end.

Definition is_RequestException (e : Exn) : bool :=
  match e with Timeout | RequestException => true | _ => false end.

Definition is_ConnectionError (e : Exn) : bool :=
  match e with RedisConnectionError => true | _ => false end.

Definition is_Exception (e : Exn) : bool :=
  match e with KeyboardInterrupt => false | _ => true end.

(** ** The monad: state passing with exceptions *)

Inductive Res (A : Type) : Type :=
| Ret (a : A)
| Raise (e : Exn).
Arguments Ret {A} a.
Arguments Raise {A} e.

Definition M (S A : Type) : Type := S -> Res A * S.

Definition ret {S A : Type} (a : A) : M S A := fun s => (Ret a, s).

Definition raise {S A : Type} (e : Exn) : M S A := fun s => (Raise e, s).

Definition bind {S A B : Type} (m : M S A) (k : A -> M S B) : M S B :=
  fun s =>
    match m s with
    | (Ret a, s') => k a s'
    | (Raise e, s') => (Raise e, s')
    end.

(** [try: body / except ...: handler]; the handler re-raises what no clause
    catches.  State changes made by the body before it raised are kept. *)
Definition try_except {S A : Type} (body : M S A) (handler : Exn -> M S A) : M S A :=
  fun s =>
    match body s with
    | (Ret a, s') => (Ret a, s')
    | (Raise e, s') => handler e s'
    end.

Definition get_state {S : Type} : M S S := fun s => (Ret s, s).

Definition modify {S : Type} (f : S -> S) : M S unit := fun s => (Ret tt, f s).

Declare Scope py_scope.
Delimit Scope py_scope with py.
Notation "x <- m ;; k" := (bind m (fun x => k))
  (at level 100, m at next level, right associativity) : py_scope.
Notation "m ;;; k" := (bind m (fun _ => k))
  (at level 100, right associativity) : py_scope.
Open Scope py_scope.

(** A [for] loop whose body may fall through to the next item, [continue],
    [break] or [return], and which carries the locals it rebinds. *)
Inductive Step (L A : Type) : Type :=
| Next (l : L)       (* end of body, or continue *)
| Break (l : L)
| Return (a : A).
Arguments Next {L A} l.
Arguments Break {L A} l.
Arguments Return {L A} a.

Inductive LoopExit (L A : Type) : Type :=
| Finished (l : L)   (* items exhausted, or break *)
| Returned (a : A).
Arguments Finished {L A} l.
Arguments Returned {L A} a.

Fixpoint for_loop {S I L A : Type} (items : list I)
    (body : I -> L -> M S (Step L A)) (l : L) : M S (LoopExit L A) :=
  match items with
  | [] => ret (Finished l)
  | i :: rest =>
      st <- body i l ;;
      match st with
      | Next l' => for_loop rest body l'
      | Break l' => ret (Finished l')
      | Return a => ret (Returned a)
      end
  end.

(** [range(n)] *)
Definition range (n : nat) : list nat := seq 0 n.

(** ** The world *)

(** A client object is identified by the order in which it was constructed. *)
Definition handle : Type := nat.

Inductive HttpReply : Type :=
| Replied (status_code : nat) (text : string)
| HttpTimeout
| HttpRequestError
| HttpUnexpected.

Inductive RedisReply : Type :=
| RedisOk
| RedisConnectionFailure
| RedisOtherFailure.

(** What the process does that the outside can see, with the answer it got. *)
Inductive Event : Type :=
| EvHttpGet (service : string) (reply : HttpReply)
| EvSleep (seconds : nat)
| EvNewClient (h : handle)
| EvPing (h : handle) (reply : RedisReply)
| EvSet (h : handle) (key value : string) (reply : RedisReply).

Record World : Type := mkWorld {
  cached_client : option handle;   (* the module global _redis_client *)
  next_handle : handle;
  clock : nat;                     (* I/O calls made so far *)
  trace : list Event               (* oldest first *)
}.

Definition emit (ev : Event) (w : World) : World :=
  mkWorld (cached_client w) (next_handle w) (clock w) (trace w ++ [ev]).

Definition tick (w : World) : World :=
  mkWorld (cached_client w) (next_handle w) (S (clock w)) (trace w).

Definition set_cached (c : option handle) (w : World) : World :=
  mkWorld c (next_handle w) (clock w) (trace w).

Definition bump_handle (w : World) : World :=
  mkWorld (cached_client w) (S (next_handle w)) (clock w) (trace w).

Definition initial_world : World := mkWorld None 0 0 [].

Record Environment : Type := mkEnv {
  getenv : string -> option string;
  http_reply : nat -> string -> HttpReply;
  ping_reply : nat -> handle -> RedisReply;
  set_reply : nat -> handle -> string -> string -> RedisReply
}.

Record Response : Type := mkResponse {
  status_code : nat;
  text : string
}.

Section Primitives.

Variable env : Environment.

(** [os.getenv(name, default)] *)
Definition getenv_default (name default : string) : string :=
  match getenv env name with Some v => v | None => default end.

(** [requests.get(service, timeout=...)] *)
Definition requests_get (service : string) (timeout : nat) : M World Response :=
  fun w =>
    let reply := http_reply env (clock w) service in
    let w' := tick (emit (EvHttpGet service reply) w) in
    match reply with
    | Replied st body => (Ret (mkResponse st body), w')
    | HttpTimeout => (Raise Timeout, w')
    | HttpRequestError => (Raise RequestException, w')
    | HttpUnexpected => (Raise OtherException, w')
    end.

(** [time.sleep(seconds)] *)
Definition sleep (seconds : nat) : M World unit :=
  fun w => (Ret tt, emit (EvSleep seconds) w).

(** [redis.Redis(host=..., port=..., ...)]: builds the object, no I/O yet. *)
Definition Redis (host : string) (port : Z) (password : option string)
  : M World handle :=
  fun w => (Ret (next_handle w), bump_handle (emit (EvNewClient (next_handle w)) w)).

(** [client.ping()] *)
Definition ping (h : handle) : M World unit :=
  fun w =>
    let reply := ping_reply env (clock w) h in
    let w' := tick (emit (EvPing h reply) w) in
    match reply with
    | RedisOk => (Ret tt, w')
    | RedisConnectionFailure => (Raise RedisConnectionError, w')
    | RedisOtherFailure => (Raise OtherException, w')
    end.

(** [redis_client.set(key, value)]; on [None] the attribute lookup fails. *)
Definition client_set (c : option handle) (key value : string) : M World unit :=
  fun w =>
    match c with
    | None => (Raise AttributeError, w)
    | Some h =>
        let reply := set_reply env (clock w) h key value in
        let w' := tick (emit (EvSet h key value reply) w) in
        match reply with
        | RedisOk => (Ret tt, w')
        | RedisConnectionFailure => (Raise RedisConnectionError, w')
        | RedisOtherFailure => (Raise OtherException, w')
        end
    end.

(** [int(text)] as a statement that may raise. *)
Definition int_of (s : string) : M World Z :=
  match Py.int s with
  | Some z => ret z
  | None => raise ValueError
  end.

End Primitives.

(** ** scripts/public_ip.py *)

Module PublicIp.

Definition ip_services : list string :=
  [ "https://api.ipify.org?format=text";
    "https://ifconfig.me/ip";
    "https://icanhazip.com" ].

Definition key : string := "ip.control.publicIp".

(** The record written under [key].  Its time stamps play no part in the
    control flow; the value is represented by the address it carries. *)
Definition json_dumps (public_ip : string) : string := public_ip.

(** The locals of [main] that live across iterations. *)
Record Locals : Type := mkLocals {
  iteration : nat;
  consecutive_errors : nat;
  last_successful_ip : option string;
  redis_client : option handle
}.

Record MainState : Type := mkMain {
  locals : Locals;
  world : World
}.

Definition max_consecutive_errors : nat := 10.
Definition sleep_interval : nat := 60.

(** An exception that the body of an iteration does not anticipate, raised
    while the named call is running (the operator's Ctrl-C included). *)
Inductive Fault : Type :=
| NoFault
| FaultInProbe (e : Exn)
| FaultInPublish (e : Exn).

(** How an iteration ended; returned for the statements, not by the script. *)
Inductive IterationEnd : Type :=
| Published (ip : string)
| Skipped (ip : string)
| PublishFailed (ip : string)
| ProbeFailed
| BackedOff (seconds : nat)
| CooledDown.

Section WithEnvironment.

Variable env : Environment.

Definition get_redis_client (retry : bool) : M World (option handle) :=
  w0 <- get_state ;;
  (* Return existing client if available and healthy *)
  early <- match cached_client w0 with
           | Some h =>
               try_except
                 (ping env h ;;; ret (Some (Some h)))
                 (fun e =>
                    if is_Exception e
                    then modify (set_cached None) ;;; ret None
                    else raise e)
           | None => ret None
           end ;;
  match early with
  | Some client => ret client
  | None =>
      try_except
        (let redis_host := getenv env "REDIS_HOST" in
         redis_port <- int_of (getenv_default env "REDIS_PORT" "6379") ;;
         let redis_password := getenv env "REDIS_PASSWORD" in
         if negb (Py.truthy redis_host) then ret None
         else
           client <- Redis (getenv_default env "REDIS_HOST" "")
                           redis_port redis_password ;;
           (* Test connection *)
           ping env client ;;;
           modify (set_cached (Some client)) ;;;
           ret (Some client))
        (fun e =>
           if is_ConnectionError e then ret None
           else if is_Exception e then ret None
           else raise e)
  end.

(** Body of [for attempt in range(max_retries):] in [get_public_ip]. *)
Definition attempt_body (max_retries : nat) (service : string)
    (attempt : nat) (_ : unit) : M World (Step unit string) :=
  try_except
    (response <- requests_get env service 10 ;;
     if status_code response =? 200 then
       let ip := Py.strip (text response) in
       (* Basic IP validation *)
       if Py.str_truthy ip && (length (Py.split "."%char ip) =? 4)
       then ret (Return ip)
       else ret (Next tt)
     else ret (Next tt))
    (fun e =>
       if is_Timeout e then
         if attempt <? max_retries - 1
         then sleep (2 ^ attempt) ;;; ret (Next tt)   (* continue *)
         else ret (Next tt)
       else if is_RequestException e then ret (Break tt)   (* Try next service *)
       else if is_Exception e then ret (Break tt)          (* Try next service *)
       else raise e).

(** The attempts still to be made on one service. *)
Definition try_service (max_retries : nat) (service : string)
    (attempts : list nat) : M World (LoopExit unit string) :=
  for_loop attempts (attempt_body max_retries service) tt.

(** Body of [for service in ip_services:]. *)
Definition service_body (max_retries : nat) (service : string) (_ : unit)
  : M World (Step unit string) :=
  inner <- try_service max_retries service (range max_retries) ;;
  match inner with
  | Returned ip => ret (Return ip)
  | Finished _ => ret (Next tt)
  end.

Definition get_public_ip (max_retries : nat) : M World (option string) :=
  found <- for_loop ip_services (service_body max_retries) tt ;;
  match found with
  | Returned ip => ret (Some ip)
  | Finished _ => ret None
  end.

(** The publish pipeline; [scripts/current_time.py] has the same function
    with another key and another record.  First, the body of
    [for attempt in range(max_retries):]. *)
Definition write_attempt (key value : string) (max_retries : nat)
    (attempt : nat) (redis_client : option handle)
  : M World (Step (option handle) bool) :=
  try_except
    (client_set env redis_client key value ;;; ret (Return true))
    (fun e =>
       if is_ConnectionError e then
         if attempt <? max_retries - 1 then
           (* Try to reconnect *)
           redis_client' <- get_redis_client true ;;
           if negb (Py.is_some redis_client')
           then sleep (2 ^ attempt) ;;; ret (Next redis_client')   (* continue *)
           else ret (Next redis_client')
         else ret (Return false)
       else if is_Exception e then ret (Return false)
       else raise e).

(** The write attempts still to be made, from the client in hand. *)
Definition write_loop (key value : string) (max_retries : nat)
    (attempts : list nat) (redis_client : option handle)
  : M World (LoopExit (option handle) bool) :=
  for_loop attempts (write_attempt key value max_retries) redis_client.

Definition post_with_retry (key value : string)
    (redis_client : option handle) (max_retries : nat) : M World bool :=
  client <- (if negb (Py.is_some redis_client)
             then get_redis_client true   (* Try to get a new connection *)
             else ret redis_client) ;;
  if negb (Py.is_some client) then ret false
  else
    out <- write_loop key value max_retries (range max_retries) client ;;
    match out with
    | Returned b => ret b
    | Finished _ => ret false
    end.

Definition post_to_redis (redis_client : option handle) (public_ip : string)
    (max_retries : nat) : M World bool :=
  post_with_retry key (json_dumps public_ip) redis_client max_retries.

(** Running a [World] computation from inside [main]. *)
Definition lift {A : Type} (m : M World A) : M MainState A :=
  fun s =>
    match m (world s) with
    | (r, w') => (r, mkMain (locals s) w')
    end.

Definition update (f : Locals -> Locals) : M MainState unit :=
  modify (fun s => mkMain (f (locals s)) (world s)).

Definition read {A : Type} (f : Locals -> A) : M MainState A :=
  fun s => (Ret (f (locals s)), s).

Definition set_iteration (n : nat) (l : Locals) : Locals :=
  mkLocals n (consecutive_errors l) (last_successful_ip l) (redis_client l).
Definition set_consecutive_errors (n : nat) (l : Locals) : Locals :=
  mkLocals (iteration l) n (last_successful_ip l) (redis_client l).
Definition set_last_successful_ip (o : option string) (l : Locals) : Locals :=
  mkLocals (iteration l) (consecutive_errors l) o (redis_client l).
Definition set_redis_client (c : option handle) (l : Locals) : Locals :=
  mkLocals (iteration l) (consecutive_errors l) (last_successful_ip l) c.

Definition incr_errors : M MainState unit :=
  update (fun l => set_consecutive_errors (consecutive_errors l + 1) l).

Definition faulted {A : Type} (hit : option Exn) (call : M World A) : M World A :=
  match hit with
  | Some e => raise e
  | None => call
  end.

Definition probe_fault (f : Fault) : option Exn :=
  match f with FaultInProbe e => Some e | _ => None end.

Definition publish_fault (f : Fault) : option Exn :=
  match f with FaultInPublish e => Some e | _ => None end.

(** The [try] block of one turn of [while True:]. *)
Definition iteration_body (f : Fault) : M MainState IterationEnd :=
  (* Get public IP *)
  public_ip <- lift (faulted (probe_fault f) (get_public_ip 3)) ;;
  ended <-
    (if Py.truthy public_ip then
       let ip := match public_ip with Some s => s | None => "" end in
       last <- read last_successful_ip ;;
       (* Only post if IP changed or first time *)
       if negb (Py.opt_str_eqb public_ip last) then
         client <- read redis_client ;;
         posted <- lift (faulted (publish_fault f) (post_to_redis client ip 3)) ;;
         if posted then
           update (set_last_successful_ip public_ip) ;;;
           update (set_consecutive_errors 0) ;;;   (* Reset error counter on success *)
           ret (Published ip)
         else incr_errors ;;; ret (PublishFailed ip)
       else update (set_consecutive_errors 0) ;;; ret (Skipped ip)
     else incr_errors ;;; ret ProbeFailed) ;;
  (* Sleep between iterations *)
  lift (sleep sleep_interval) ;;;
  ret ended.

(** Its [except Exception as e:] block. *)
Definition on_exception : M MainState IterationEnd :=
  incr_errors ;;;
  errors <- read consecutive_errors ;;
  if max_consecutive_errors <=? errors then
    lift (sleep 300) ;;;                       (* Wait 5 minutes before retrying *)
    update (set_consecutive_errors 0) ;;;      (* Reset after long wait *)
    (* Try to reconnect to Redis *)
    client <- lift (get_redis_client true) ;;
    update (set_redis_client client) ;;;
    ret CooledDown
  else
    (* Exponential backoff: 2^errors seconds, max 60 seconds *)
    let backoff_time := Nat.min (2 ^ errors) 60 in
    lift (sleep backoff_time) ;;;
    ret (BackedOff backoff_time).

(** One turn of [while True:] in [main]. *)
Definition loop_iteration (f : Fault) : M MainState IterationEnd :=
  update (fun l => set_iteration (iteration l + 1) l) ;;;
  try_except (iteration_body f)
    (fun e => if is_Exception e then on_exception else raise e).

(** The loop observed for as many iterations as there are entries in
    [faults]; an exception that escapes an iteration ends it. *)
Fixpoint run_loop (faults : list Fault) : M MainState (list IterationEnd) :=
  match faults with
  | [] => ret []
  | f :: rest =>
      ended <- loop_iteration f ;;
      ends <- run_loop rest ;;
      ret (ended :: ends)
  end.

(** [main]: connect, initialise the locals, loop; Ctrl-C ends it quietly. *)
Definition main (faults : list Fault) : M World (list IterationEnd) :=
  redis_client <- get_redis_client true ;;
  fun w =>
    match try_except (run_loop faults)
            (fun e => match e with
                      | KeyboardInterrupt => ret []
                      | _ => raise e
                      end)
            (mkMain (mkLocals 0 0 None redis_client) w)
    with
    | (r, s) => (r, world s)
    end.

End WithEnvironment.

End PublicIp.

(** ** scripts/current_time.py *)

Module CurrentTime.

Definition key : string := "timestamp.servertime".

Section WithEnvironment.

Variable env : Environment.

(** Line for line the function of [scripts/public_ip.py], on this module's
    own [_redis_client]; a process loads only one of the two modules. *)
Definition get_redis_client (retry : bool) : M World (option handle) :=
  PublicIp.get_redis_client env retry.

Definition post_to_redis (redis_client : option handle) (timestamp_data : string)
    (max_retries : nat) : M World bool :=
  PublicIp.post_with_retry env key timestamp_data redis_client max_retries.

(** The tail of [show_world_timezones]: fetch the client, then post. *)
Definition show_world_timezones (timestamp_data : string) : M World bool :=
  redis_client <- get_redis_client true ;;
  post_to_redis redis_client timestamp_data 3.

End WithEnvironment.

End CurrentTime.

(** ** whatsmyip.py and scripts/whatsmyip.py *)

Module IPMonitor.

Definition ip_services : list string :=
  [ "https://api.ipify.org?format=text";
    "https://ifconfig.me/ip";
    "https://icanhazip.com" ].

Section WithEnvironment.

Variable env : Environment.

Definition get_public_ip : M World (option string) :=
  found <- for_loop ip_services
    (fun service (_ : unit) =>
       try_except
         (response <- requests_get env service 5 ;;
          if status_code response =? 200 then
            let ip := Py.strip (text response) in
            if Py.str_truthy ip then ret (Return ip) else ret (Next tt)
          else ret (Next tt))
         (fun e => if is_Exception e then ret (Next tt) else raise e))
    tt ;;
  match found with
  | Returned ip => ret (Some ip)
  | Finished _ => ret None
  end.

(** What the object prints (the scripts/ copy logs the same lines). *)
Inductive Notice : Type :=
| InitialIp (ip : string)          (* Initial IP detected: ip *)
| IpChanged (old new : string)     (* IP CHANGED! / Old IP: old / New IP: new *)
| IpUnchanged (ip : string)        (* IP unchanged: ip *)
| RetrieveFailed                   (* Failed to retrieve IP address *)
| AlreadyRunning
| Started (check_interval : nat)
| Stopped.

(** What the object does besides probing: printing, and handling its thread. *)
Inductive Action : Type :=
| Print (n : Notice)
| ThreadStart (id : nat)             (* Thread(target=monitor_loop, daemon=True).start() *)
| ThreadJoin (id : nat) (timeout : nat).

(** The fields of [self]; [thread] names the thread object by the order in
    which it was created. *)
Record Monitor : Type := mkMonitor {
  check_interval : nat;
  current_ip : option string;
  running : bool;
  thread : option nat
}.

Record State : Type := mkState {
  self : Monitor;
  threads_created : nat;
  actions : list Action;     (* oldest first *)
  world : World
}.


Definition lift {A : Type} (m : M World A) : M State A :=
  fun s =>
    match m (world s) with
    | (r, w') => (r, mkState (self s) (threads_created s) (actions s) w')
    end.

Definition read {A : Type} (f : Monitor -> A) : M State A :=
  fun s => (Ret (f (self s)), s).

Definition update (f : Monitor -> Monitor) : M State unit :=
  modify (fun s => mkState (f (self s)) (threads_created s) (actions s) (world s)).






End WithEnvironment.

End IPMonitor.

(** ** scripts/app.py *)

Module App.

(** The locals of [main] that live across iterations. *)
Record Locals : Type := mkLocals {
  iteration : nat;
  consecutive_errors : nat
}.

Record LoopState : Type := mkLoop {
  locals : Locals;
  world : World
}.

Definition max_consecutive_errors : nat := 10.
Definition sleep_interval : nat := 60.

(** How an iteration ended; returned for the statements, not by the script. *)
Inductive IterationEnd : Type :=
| Shown
| BackedOff (seconds : nat)
| CooledDown.

(** What one iteration is given: the record [show_world_timezones] has built
    from the clock, or the exception that building it raised. *)
Inductive Turn : Type :=
| Table (timestamp_data : string)
| TableRaises (e : Exn).

Section WithEnvironment.

Variable env : Environment.

Definition lift {A : Type} (m : M World A) : M LoopState A :=
  fun s =>
    match m (world s) with
    | (r, w') => (r, mkLoop (locals s) w')
    end.

Definition update (f : Locals -> Locals) : M LoopState unit :=
  modify (fun s => mkLoop (f (locals s)) (world s)).

Definition read {A : Type} (f : Locals -> A) : M LoopState A :=
  fun s => (Ret (f (locals s)), s).

Definition set_consecutive_errors (n : nat) (l : Locals) : Locals :=
  mkLocals (iteration l) n.

(** [current_time.show_world_timezones()] as the loop calls it. *)
Definition show_world_timezones (t : Turn) : M World bool :=
  match t with
  | Table timestamp_data => CurrentTime.show_world_timezones env timestamp_data
  | TableRaises e => raise e
  end.

(** The [try] block of one turn of [while True:]. *)
Definition iteration_body (t : Turn) : M LoopState IterationEnd :=
  lift (show_world_timezones t) ;;;
  update (set_consecutive_errors 0) ;;;   (* Reset error counter on success *)
  lift (sleep sleep_interval) ;;;
  ret Shown.

(** Its [except Exception as e:] block. *)
Definition on_exception : M LoopState IterationEnd :=
  update (fun l => set_consecutive_errors (consecutive_errors l + 1) l) ;;;
  errors <- read consecutive_errors ;;
  if max_consecutive_errors <=? errors then
    lift (sleep 300) ;;;                       (* Wait 5 minutes before retrying *)
    update (set_consecutive_errors 0) ;;;      (* Reset after long wait *)
    ret CooledDown
  else
    (* Exponential backoff: 2^errors seconds, max 60 seconds *)
    let backoff_time := Nat.min (2 ^ errors) 60 in
    lift (sleep backoff_time) ;;;
    ret (BackedOff backoff_time).

Definition loop_iteration (t : Turn) : M LoopState IterationEnd :=
  update (fun l => mkLocals (iteration l + 1) (consecutive_errors l)) ;;;
  try_except (iteration_body t)
    (fun e => if is_Exception e then on_exception else raise e).

Fixpoint run_loop (turns : list Turn) : M LoopState (list IterationEnd) :=
  match turns with
  | [] => ret []
  | t :: rest =>
      ended <- loop_iteration t ;;
      ends <- run_loop rest ;;
      ret (ended :: ends)
  end.

End WithEnvironment.

End App.

(** ** Reading a trace *)

(** The services asked, in order. *)
Fixpoint http_requests (evs : list Event) : list string :=
  match evs with
  | [] => []
  | EvHttpGet service _ :: rest => service :: http_requests rest
  | _ :: rest => http_requests rest
  end.

(** The sleeps, in order. *)
Fixpoint sleeps (evs : list Event) : list nat :=
  match evs with
  | [] => []
  | EvSleep n :: rest => n :: sleeps rest
  | _ :: rest => sleeps rest
  end.

(** The answers to the store writes that were attempted, in order. *)
Fixpoint set_attempts (evs : list Event) : list RedisReply :=
  match evs with
  | [] => []
  | EvSet _ _ _ reply :: rest => reply :: set_attempts rest
  | _ :: rest => set_attempts rest
  end.

(** The writes the store received: the [set] calls it acknowledged. *)
Fixpoint store_writes (evs : list Event) : list (string * string) :=
  match evs with
  | [] => []
  | EvSet _ k v RedisOk :: rest => (k, v) :: store_writes rest
  | _ :: rest => store_writes rest
  end.

(** The events that touch the store or build a client for it. *)
Definition is_store_event (ev : Event) : bool :=
  match ev with
  | EvNewClient _ | EvPing _ _ | EvSet _ _ _ _ => true
  | _ => false
  end.

Definition store_events (evs : list Event) : list Event :=
  filter is_store_event evs.

(** The check [get_public_ip] of [scripts/public_ip.py] applies to a body. *)
Definition valid_address (body : string) : bool :=
  Py.str_truthy (Py.strip body)
  && (length (Py.split "."%char (Py.strip body)) =? 4).

(** A reply that [get_public_ip] accepts. *)
Definition accepted_reply (r : HttpReply) : bool :=
  match r with
  | Replied st body => (st =? 200) && valid_address body
  | _ => false
  end.

(** No write is sent over a handle that was not just answered by a ping:
    after the first [set], every further [set] comes right after a
    successful ping of the handle it uses. *)
Fixpoint pinged_before_resend (seen_set : bool) (prev : option Event)
    (evs : list Event) : bool :=
  match evs with
  | [] => true
  | EvSet h k v r :: rest =>
      (if seen_set
       then match prev with
            | Some (EvPing h' RedisOk) => h' =? h
            | _ => false
            end
       else true)
      && pinged_before_resend true (Some (EvSet h k v r)) rest
  | ev :: rest => pinged_before_resend seen_set (Some ev) rest
  end.

(** Every write attempt that is followed by anything at all failed on the
    connection: an acknowledged write, or a failure of another kind, ends
    the call. *)
Fixpoint only_connection_failures_retried (evs : list Event) : bool :=
  match evs with
  | [] => true
  | EvSet _ _ _ r :: rest =>
      match rest, r with
      | [], _ => true
      | _ :: _, RedisConnectionFailure => only_connection_failures_retried rest
      | _ :: _, _ => false
      end
  | _ :: rest => only_connection_failures_retried rest
  end.

Definition accepted_event (ev : Event) : bool :=
  match ev with
  | EvHttpGet _ r => accepted_reply r
  | _ => false
  end.

(** ** Configuration of the store *)

(** [REDIS_HOST] is set to a non-empty string and the port converts. *)
Definition store_configured (env : Environment) : Prop :=
  Py.truthy (getenv env "REDIS_HOST") = true /\
  Py.int (getenv_default env "REDIS_PORT" "6379") <> None.


(** ** Reading the ends of iterations *)



(** The fault, if any, raises a subclass of [Exception]. *)
Definition ordinary_fault (f : PublicIp.Fault) : bool :=
  match f with
  | PublicIp.NoFault => true
  | PublicIp.FaultInProbe e | PublicIp.FaultInPublish e => is_Exception e
  end.

(** ** Some environments *)


Definition host_only : string -> option string :=
  fun name => if String.eqb name "REDIS_HOST" then Some "redis.internal" else None.


(** Every lookup fails with a connection error; the store is down. *)
Definition env_all_down : Environment :=
  mkEnv host_only
        (fun _ _ => HttpRequestError)
        (fun _ _ => RedisConnectionFailure)
        (fun _ _ _ _ => RedisConnectionFailure).


(** Lookups answer and the store is up. *)
Definition env_healthy : Environment :=
  mkEnv host_only
        (fun _ _ => Replied 200 "203.0.113.7")
        (fun _ _ => RedisOk)
        (fun _ _ _ _ => RedisOk).

(** The first service only times out, the others answer. *)
Definition env_first_times_out : Environment :=
  mkEnv host_only
        (fun _ service =>
           if String.eqb service "https://api.ipify.org?format=text"
           then HttpTimeout else Replied 200 "198.51.100.9")
        (fun _ _ => RedisOk)
        (fun _ _ _ _ => RedisOk).

(** Lookups answer with status 200 and a page that is no address. *)
Definition env_error_page : Environment :=
  mkEnv host_only
        (fun _ _ => Replied 200 "Service Unavailable")
        (fun _ _ => RedisOk)
        (fun _ _ _ _ => RedisOk).

(** The store is up but the connection of client 0 is dead. *)
Definition env_dead_handle : Environment :=
  mkEnv host_only
        (fun _ _ => Replied 200 "203.0.113.7")
        (fun _ h => if h =? 0 then RedisConnectionFailure else RedisOk)
        (fun _ h _ _ => if h =? 0 then RedisConnectionFailure else RedisOk).



(** A world in which client 0 was connected and is the cached one. *)
Definition world_with_client_0 : World := mkWorld (Some 0) 1 0 [].

(** The state of [main] on entering the loop with no client. *)
Definition start : PublicIp.MainState :=
  PublicIp.mkMain (PublicIp.mkLocals 0 0 None None) initial_world.

(** ** More readings of a trace, and of a string *)

(** The clients built, in order. *)
Fixpoint new_clients (evs : list Event) : list handle :=
  match evs with
  | [] => []
  | EvNewClient h :: rest => h :: new_clients rest
  | _ :: rest => new_clients rest
  end.

(** How many times [c] occurs in [s]. *)
Fixpoint occurrences (c : ascii) (s : string) : nat :=
  match s with
  | EmptyString => 0
  | String c' rest => (if Ascii.eqb c' c then 1 else 0) + occurrences c rest
  end.

(** A reply that [IPMonitor.get_public_ip] accepts. *)
Definition monitor_accepts (r : HttpReply) : bool :=
  match r with
  | Replied st body => (st =? 200) && Py.str_truthy (Py.strip body)
  | _ => false
  end.

Definition monitor_accepts_event (ev : Event) : bool :=
  match ev with
  | EvHttpGet _ r => monitor_accepts r
  | _ => false
  end.

(** The sleep of the [except] block when the counter has reached [errors]. *)
Definition backoff_time (errors : nat) : nat := Nat.min (2 ^ errors) 60.

(** A turn of the loop of [scripts/app.py] that raises no more than an
    [Exception]. *)
Definition ordinary_turn (t : App.Turn) : bool :=
  match t with
  | App.Table _ => true
  | App.TableRaises e => is_Exception e
  end.

(** A string that is empty or begins with a character that is no space. *)
Definition starts_clean (s : string) : Prop :=
  match s with
  | EmptyString => True
  | String c _ => Py.is_space c = false
  end.

(** A string that is empty or ends with a character that is no space. *)
Fixpoint ends_clean (s : string) : Prop :=
  match s with
  | EmptyString => True
  | String c EmptyString => Py.is_space c = false
  | String _ rest => ends_clean rest
  end.

(** An iteration that ended in the long wait. *)
Definition is_cooled_down (e : PublicIp.IterationEnd) : bool :=
  match e with PublicIp.CooledDown => true | _ => false end.



(** * Proofs *)

(** ** Symbolic execution *)

Ltac break_match :=
  match goal with
  | |- context [match ?x with _ => _ end] =>
      lazymatch x with
      | context [match _ with _ => _ end] => fail
      | _ => destruct x eqn:?
      end
  end.

Ltac run_monad :=
  cbv [bind ret raise try_except get_state modify
       ping Redis sleep client_set requests_get int_of
       emit tick set_cached bump_handle
       is_Exception is_ConnectionError is_Timeout is_RequestException
       negb Py.is_some];
  cbn [cached_client next_handle clock trace status_code text].

Ltac trace_eq :=
  first [ symmetry; apply app_nil_r
        | repeat rewrite <- app_assoc; cbn [app]; reflexivity ].

Lemma http_requests_app (a b : list Event) :
  http_requests (a ++ b) = http_requests a ++ http_requests b.
Proof.
  induction a as [|ev a IH]; [reflexivity|].
  destruct ev; cbn; rewrite ?IH; reflexivity.
Qed.

Lemma sleeps_app (a b : list Event) : sleeps (a ++ b) = sleeps a ++ sleeps b.
Proof.
  induction a as [|ev a IH]; [reflexivity|].
  destruct ev; cbn; rewrite ?IH; reflexivity.
Qed.

Lemma set_attempts_app (a b : list Event) :
  set_attempts (a ++ b) = set_attempts a ++ set_attempts b.
Proof.
  induction a as [|ev a IH]; [reflexivity|].
  destruct ev; cbn; rewrite ?IH; reflexivity.
Qed.

Lemma store_writes_app (a b : list Event) :
  store_writes (a ++ b) = store_writes a ++ store_writes b.
Proof.
  induction a as [|ev a IH]; [reflexivity|].
  destruct ev as [| | | |h k v r]; cbn; rewrite ?IH; try reflexivity.
  destruct r; cbn; rewrite ?IH; reflexivity.
Qed.

Lemma store_events_app (a b : list Event) :
  store_events (a ++ b) = store_events a ++ store_events b.
Proof. apply filter_app. Qed.

(** ** The store connection *)

(** [get_redis_client] always returns: it neither sleeps nor writes nor asks
    a lookup service, it leaves the global equal to what it returns, and a
    client it returns has just answered a ping. *)
Lemma get_redis_client_returns (env : Environment) (retry : bool) (w : World) :
  exists r w' evs,
    PublicIp.get_redis_client env retry w = (Ret r, w') /\
    trace w' = trace w ++ evs /\
    cached_client w' = r /\
    sleeps evs = [] /\ set_attempts evs = [] /\ http_requests evs = [] /\
    (forall h, r = Some h -> exists pre, evs = pre ++ [EvPing h RedisOk]).
Proof.
  destruct w as [c nh t tr].
  unfold PublicIp.get_redis_client. run_monad.
  repeat (break_match; run_monad; try discriminate).
  all: do 3 eexists; split; [reflexivity|]; cbn; split; [trace_eq|].
  all: cbn; repeat split; try discriminate.
  all: intros h' [= <-].
  - exists []; reflexivity.
  - eexists [_; _]; reflexivity.
  - eexists [_; _]; reflexivity.
  - eexists [_]; reflexivity.
Qed.

(** ** The IP probe of scripts/public_ip.py *)

Lemma try_service_spec (env : Environment) (n : nat) (service : string)
    (attempts : list nat) :
  forall w,
  exists out w' evs,
    PublicIp.try_service env n service attempts w = (Ret out, w') /\
    trace w' = trace w ++ evs /\
    cached_client w' = cached_client w /\
    store_events evs = [] /\
    (exists k, k <= length attempts /\ http_requests evs = repeat service k /\
               (attempts <> [] -> 1 <= k)) /\
    match out with
    | Returned ip =>
        exists pre body,
          evs = pre ++ [EvHttpGet service (Replied 200 body)] /\
          ip = Py.strip body /\ valid_address body = true /\
          existsb accepted_event pre = false
    | Finished _ => existsb accepted_event evs = false
    end.
Proof.
  induction attempts as [|a rest IH]; intros w.
  - exists (Finished tt), w, []. cbn. repeat split; try trace_eq.
    exists 0. repeat split; [lia | congruence].
  - unfold PublicIp.try_service in *. cbn [for_loop].
    unfold PublicIp.attempt_body at 1.
    destruct w as [c nh t tr]. run_monad.
    destruct (http_reply env t service) as [st body| | |] eqn:Hreply; run_monad.
    + destruct (st =? 200) eqn:Hst; run_monad.
      * apply Nat.eqb_eq in Hst; subst st.
        fold (valid_address body).
        destruct (valid_address body) eqn:Hvalid.
        -- do 3 eexists. split; [reflexivity|]. cbn.
           split; [trace_eq|]. repeat split.
           ++ exists 1. cbn. repeat split; lia.
           ++ exists [], body. repeat split; assumption.
        -- destruct (IH (mkWorld c nh (S t) (tr ++ [EvHttpGet service (Replied 200 body)])))
             as (out & w' & evs & Hrun & Htr & Hc & Hst & (k & Hk & Hreq & Hk1) & Hout).
           exists out, w', (EvHttpGet service (Replied 200 body) :: evs).
           split; [exact Hrun|]. cbn in Htr, Hc |- *.
           split; [rewrite Htr; trace_eq|]. repeat split; try assumption.
           ++ exists (S k). cbn. rewrite Hreq. repeat split; lia.
           ++ destruct out as [l|ip].
              ** cbn. rewrite Hvalid. exact Hout.
              ** destruct Hout as (pre & body' & -> & Hip & Hv & Hpre).
                 exists (EvHttpGet service (Replied 200 body) :: pre), body'.
                 repeat split; try assumption.
                 cbn. rewrite Hvalid. exact Hpre.
      * destruct (IH (mkWorld c nh (S t) (tr ++ [EvHttpGet service (Replied st body)])))
          as (out & w' & evs & Hrun & Htr & Hc & Hse & (k & Hk & Hreq & Hk1) & Hout).
        exists out, w', (EvHttpGet service (Replied st body) :: evs).
        split; [exact Hrun|]. cbn in Htr, Hc |- *.
        split; [rewrite Htr; trace_eq|]. repeat split; try assumption.
        -- exists (S k). cbn. rewrite Hreq. repeat split; lia.
        -- destruct out as [l|ip].
           ++ cbn. rewrite Hst. exact Hout.
           ++ destruct Hout as (pre & body' & -> & Hip & Hv & Hpre).
              exists (EvHttpGet service (Replied st body) :: pre), body'.
              repeat split; try assumption.
              cbn. rewrite Hst. exact Hpre.
    + destruct (a <? n - 1).
      * destruct (IH (mkWorld c nh (S t)
                        ((tr ++ [EvHttpGet service HttpTimeout]) ++ [EvSleep (2 ^ a)])))
          as (out & w' & evs & Hrun & Htr & Hc & Hse & (k & Hk & Hreq & Hk1) & Hout).
        exists out, w', (EvHttpGet service HttpTimeout :: EvSleep (2 ^ a) :: evs).
        split; [exact Hrun|]. cbn in Htr, Hc |- *.
        split; [rewrite Htr; trace_eq|]. repeat split; try assumption.
        -- exists (S k). cbn. rewrite Hreq. repeat split; lia.
        -- destruct out as [l|ip].
           ++ exact Hout.
           ++ destruct Hout as (pre & body' & -> & Hip & Hv & Hpre).
              exists (EvHttpGet service HttpTimeout :: EvSleep (2 ^ a) :: pre), body'.
              repeat split; assumption.
      * destruct (IH (mkWorld c nh (S t) (tr ++ [EvHttpGet service HttpTimeout])))
          as (out & w' & evs & Hrun & Htr & Hc & Hse & (k & Hk & Hreq & Hk1) & Hout).
        exists out, w', (EvHttpGet service HttpTimeout :: evs).
        split; [exact Hrun|]. cbn in Htr, Hc |- *.
        split; [rewrite Htr; trace_eq|]. repeat split; try assumption.
        -- exists (S k). cbn. rewrite Hreq. repeat split; lia.
        -- destruct out as [l|ip].
           ++ exact Hout.
           ++ destruct Hout as (pre & body' & -> & Hip & Hv & Hpre).
              exists (EvHttpGet service HttpTimeout :: pre), body'.
              repeat split; assumption.
    + do 3 eexists. split; [reflexivity|]. cbn.
      split; [trace_eq|]. repeat split.
      exists 1. cbn. repeat split; lia.
    + do 3 eexists. split; [reflexivity|]. cbn.
      split; [trace_eq|]. repeat split.
      exists 1. cbn. repeat split; lia.
Qed.

(** Requests made when the [i]-th service is asked [k_i] times. *)
Lemma services_loop_spec (env : Environment) (n : nat) (services : list string) :
  forall w,
  exists out w' evs,
    for_loop services (PublicIp.service_body env n) tt w = (Ret out, w') /\
    trace w' = trace w ++ evs /\
    cached_client w' = cached_client w /\
    store_events evs = [] /\
    (exists ks, length ks = length services /\
                Forall (fun k => k <= n) ks /\
                http_requests evs =
                  concat (map (fun p => repeat (fst p) (snd p)) (combine services ks)) /\
                (forall l, out = Finished l -> 0 < n -> Forall (fun k => 1 <= k) ks)) /\
    match out with
    | Returned ip =>
        exists pre service body,
          evs = pre ++ [EvHttpGet service (Replied 200 body)] /\
          In service services /\
          ip = Py.strip body /\ valid_address body = true /\
          existsb accepted_event pre = false
    | Finished _ => existsb accepted_event evs = false
    end.
Proof.
  induction services as [|s rest IH]; intros w.
  - exists (Finished tt), w, []. cbn. repeat split; try trace_eq.
    exists []. repeat split; constructor.
  - cbn [for_loop]. unfold PublicIp.service_body at 1. unfold bind at 1 2.
    destruct (try_service_spec env n s (range n) w)
      as (out1 & w1 & evs1 & Hrun1 & Htr1 & Hc1 & Hse1 & (k & Hk & Hreq1 & Hk1) & Hout1).
    rewrite Hrun1. unfold range in Hk. rewrite length_seq in Hk.
    destruct out1 as [l|ip]; unfold ret.
    + destruct (IH w1)
        as (out & w' & evs & Hrun & Htr & Hc & Hse & (ks & Hlen & Hks & Hreq & Hfin) & Hout).
      exists out, w', (evs1 ++ evs). split; [exact Hrun|].
      split; [rewrite Htr, Htr1; trace_eq|].
      split; [congruence|].
      split; [rewrite store_events_app, Hse1, Hse; reflexivity|].
      split.
      * exists (k :: ks). cbn. repeat split.
        -- congruence.
        -- constructor; assumption.
        -- rewrite http_requests_app, Hreq1, Hreq. reflexivity.
        -- intros l' Hl' Hn. constructor; [|eauto].
           apply Hk1. unfold range. destruct n; [lia|discriminate].
      * destruct out as [l'|ip].
        -- rewrite existsb_app, Hout1, Hout. reflexivity.
        -- destruct Hout as (pre & service & body & -> & Hin & Hip & Hv & Hpre).
           exists (evs1 ++ pre), service, body. repeat split; try assumption.
           ++ trace_eq.
           ++ right; exact Hin.
           ++ rewrite existsb_app, Hout1, Hpre. reflexivity.
    + destruct Hout1 as (pre & body & -> & Hip & Hv & Hpre).
      exists (Returned ip), w1, (pre ++ [EvHttpGet s (Replied 200 body)]).
      repeat split; try assumption.
      * exists (k :: repeat 0 (length rest)). cbn. repeat split.
        -- rewrite repeat_length. reflexivity.
        -- constructor; [assumption|]. apply Forall_forall.
           intros x Hx. apply repeat_spec in Hx. lia.
        -- rewrite Hreq1.
           assert (Hz : forall (ss : list string),
                     concat (map (fun p => repeat (fst p) (snd p))
                               (combine ss (repeat 0 (length ss)))) = []).
           { induction ss as [|x ss IHss]; [reflexivity|exact IHss]. }
           rewrite Hz, app_nil_r. reflexivity.
        -- discriminate.
      * exists pre, s, body. repeat split; try assumption. left; reflexivity.
Qed.

(** The probe always returns; it asks the services in their fixed order, each
    at most [n] times; an address it returns is the body of the last request,
    which no accepted reply preceded; it returns [None] only when every
    service was asked and no reply was accepted. *)
Lemma get_public_ip_spec (env : Environment) (n : nat) (w : World) :
  exists r w' evs,
    PublicIp.get_public_ip env n w = (Ret r, w') /\
    trace w' = trace w ++ evs /\
    cached_client w' = cached_client w /\
    store_events evs = [] /\
    (exists k1 k2 k3,
        k1 <= n /\ k2 <= n /\ k3 <= n /\
        http_requests evs =
          repeat "https://api.ipify.org?format=text" k1
          ++ repeat "https://ifconfig.me/ip" k2
          ++ repeat "https://icanhazip.com" k3 /\
        (r = None -> 0 < n -> 1 <= k1 /\ 1 <= k2 /\ 1 <= k3)) /\
    match r with
    | Some ip =>
        exists pre service body,
          evs = pre ++ [EvHttpGet service (Replied 200 body)] /\
          In service PublicIp.ip_services /\
          ip = Py.strip body /\ valid_address body = true /\
          existsb accepted_event pre = false
    | None => existsb accepted_event evs = false
    end.
Proof.
  unfold PublicIp.get_public_ip, bind.
  destruct (services_loop_spec env n PublicIp.ip_services w)
    as (out & w' & evs & Hrun & Htr & Hc & Hse & (ks & Hlen & Hks & Hreq & Hfin) & Hout).
  rewrite Hrun.
  destruct ks as [|k1 [|k2 [|k3 [|]]]]; try discriminate Hlen.
  inversion Hks as [|? ? Hk1 Hks1]; subst.
  inversion Hks1 as [|? ? Hk2 Hks2]; subst.
  inversion Hks2 as [|? ? Hk3 _]; subst.
  cbn in Hreq. rewrite app_nil_r in Hreq.
  destruct out as [l|ip]; unfold ret.
  - exists None, w', evs. repeat split; try assumption.
    exists k1, k2, k3. do 4 (split; [assumption|]).
    intros _ Hn. specialize (Hfin l eq_refl Hn).
    inversion Hfin as [|? ? H1 Hf1]; subst.
    inversion Hf1 as [|? ? H2 Hf2]; subst.
    inversion Hf2 as [|? ? H3 _]; subst. auto.
  - exists (Some ip), w', evs. repeat split; try assumption.
    exists k1, k2, k3. do 4 (split; [assumption|]). discriminate.
Qed.

(** A timeout before the last attempt: sleep [2 ^ attempt], same service again. *)
Lemma try_service_timeout (env : Environment) (service : string)
    (attempt : nat) (rest : list nat) (w : World) :
  http_reply env (clock w) service = HttpTimeout ->
  attempt < 2 ->
  PublicIp.try_service env 3 service (attempt :: rest) w =
  PublicIp.try_service env 3 service rest
    (emit (EvSleep (2 ^ attempt)) (tick (emit (EvHttpGet service HttpTimeout) w))).
Proof.
  intros Hreply Hlt. destruct w as [c nh t tr]. cbn in Hreply.
  unfold PublicIp.try_service. cbn [for_loop].
  unfold PublicIp.attempt_body at 1. run_monad. rewrite Hreply. run_monad.
  change (3 - 1) with 2. apply Nat.ltb_lt in Hlt. rewrite Hlt. reflexivity.
Qed.

(** A timeout on the last attempt: no sleep, the service is left. *)
Lemma try_service_last_timeout (env : Environment) (service : string) (w : World) :
  http_reply env (clock w) service = HttpTimeout ->
  PublicIp.try_service env 3 service [2] w =
  (Ret (Finished tt), tick (emit (EvHttpGet service HttpTimeout) w)).
Proof.
  intros Hreply. destruct w as [c nh t tr]. cbn in Hreply.
  unfold PublicIp.try_service. cbn [for_loop].
  unfold PublicIp.attempt_body at 1. run_monad. rewrite Hreply. reflexivity.
Qed.

(** Any other request error: the service is abandoned at once. *)
Lemma try_service_request_error (env : Environment) (service : string)
    (attempt : nat) (rest : list nat) (w : World) (reply : HttpReply) :
  http_reply env (clock w) service = reply ->
  reply = HttpRequestError \/ reply = HttpUnexpected ->
  PublicIp.try_service env 3 service (attempt :: rest) w =
  (Ret (Finished tt), tick (emit (EvHttpGet service reply) w)).
Proof.
  intros Hreply Hkind. destruct w as [c nh t tr]. cbn in Hreply.
  unfold PublicIp.try_service. cbn [for_loop].
  unfold PublicIp.attempt_body at 1. run_monad.
  destruct Hkind as [-> | ->]; rewrite Hreply; reflexivity.
Qed.

(** A valid address: returned, whatever attempts were left. *)
Lemma try_service_valid (env : Environment) (service : string)
    (attempt : nat) (rest : list nat) (w : World) (body : string) :
  http_reply env (clock w) service = Replied 200 body ->
  valid_address body = true ->
  PublicIp.try_service env 3 service (attempt :: rest) w =
  (Ret (Returned (Py.strip body)),
   tick (emit (EvHttpGet service (Replied 200 body)) w)).
Proof.
  intros Hreply Hvalid. destruct w as [c nh t tr]. cbn in Hreply.
  unfold PublicIp.try_service. cbn [for_loop].
  unfold PublicIp.attempt_body at 1. run_monad. rewrite Hreply. run_monad.
  rewrite Nat.eqb_refl. fold (valid_address body). rewrite Hvalid. reflexivity.
Qed.

(** A valid address from the first service is returned after that one request. *)
Lemma first_service_wins (env : Environment) (w : World) (body : string) :
  http_reply env (clock w) "https://api.ipify.org?format=text" = Replied 200 body ->
  valid_address body = true ->
  PublicIp.get_public_ip env 3 w =
  (Ret (Some (Py.strip body)),
   tick (emit (EvHttpGet "https://api.ipify.org?format=text" (Replied 200 body)) w)).
Proof.
  intros Hreply Hvalid.
  unfold PublicIp.get_public_ip, PublicIp.ip_services. cbn [for_loop].
  unfold PublicIp.service_body at 1. unfold bind at 1 2 3.
  change (range 3) with [0; 1; 2].
  rewrite (try_service_valid env _ 0 [1; 2] w body Hreply Hvalid). reflexivity.
Qed.

(** The first service times out three times, the second answers. *)
Lemma second_service_after_timeouts (env : Environment) (w : World) (body : string) :
  http_reply env (clock w) "https://api.ipify.org?format=text" = HttpTimeout ->
  http_reply env (S (clock w)) "https://api.ipify.org?format=text" = HttpTimeout ->
  http_reply env (S (S (clock w))) "https://api.ipify.org?format=text" = HttpTimeout ->
  http_reply env (S (S (S (clock w)))) "https://ifconfig.me/ip" = Replied 200 body ->
  valid_address body = true ->
  exists w',
    PublicIp.get_public_ip env 3 w = (Ret (Some (Py.strip body)), w') /\
    trace w' = trace w ++
      [ EvHttpGet "https://api.ipify.org?format=text" HttpTimeout; EvSleep 1;
        EvHttpGet "https://api.ipify.org?format=text" HttpTimeout; EvSleep 2;
        EvHttpGet "https://api.ipify.org?format=text" HttpTimeout;
        EvHttpGet "https://ifconfig.me/ip" (Replied 200 body) ].
Proof.
  intros H0 H1 H2 H3 Hvalid.
  unfold PublicIp.get_public_ip, PublicIp.ip_services. cbn [for_loop].
  unfold PublicIp.service_body at 1. unfold bind at 1 2 3.
  change (range 3) with [0; 1; 2].
  rewrite (try_service_timeout env _ 0 [1; 2] w H0) by lia.
  rewrite try_service_timeout by (cbn; first [exact H1 | lia]).
  rewrite try_service_last_timeout by (cbn; exact H2).
  unfold ret at 1. cbn [for_loop]. unfold PublicIp.service_body at 1.
  unfold bind at 1 2 3. change (range 3) with [0; 1; 2].
  rewrite (try_service_valid env _ 0 [1; 2] _ body) by (cbn; assumption).
  eexists. split; [reflexivity|]. destruct w as [c nh t tr]. cbn. trace_eq.
Qed.

(** ** The publish pipeline *)

Lemma retried_skip (a b : list Event) :
  set_attempts a = [] ->
  only_connection_failures_retried (a ++ b) = only_connection_failures_retried b.
Proof.
  induction a as [|ev a IH]; intros Hno; [reflexivity|].
  destruct ev; cbn in Hno |- *; try discriminate; auto.
Qed.

Lemma retried_after_connection_failure (h : handle) (k v : string) (tail : list Event) :
  only_connection_failures_retried (EvSet h k v RedisConnectionFailure :: tail)
  = only_connection_failures_retried tail.
Proof. destruct tail; reflexivity. Qed.

Lemma pinged_no_sets (seen : bool) (a : list Event) :
  forall prev, set_attempts a = [] -> pinged_before_resend seen prev a = true.
Proof.
  induction a as [|ev a IH]; intros prev Hno; [reflexivity|].
  destruct ev; cbn in Hno |- *; try discriminate; auto.
Qed.

Lemma pinged_after (seen : bool) (pre : list Event) (e : Event) (b : list Event) :
  forall prev,
  set_attempts (pre ++ [e]) = [] ->
  pinged_before_resend seen prev (pre ++ e :: b)
  = pinged_before_resend seen (Some e) b.
Proof.
  induction pre as [|ev pre IH]; intros prev Hno.
  - destruct e; cbn in Hno |- *; try discriminate; reflexivity.
  - destruct ev; cbn in Hno |- *; try discriminate; auto.
Qed.

Lemma store_writes_no_sets (a : list Event) :
  set_attempts a = [] -> store_writes a = [].
Proof.
  induction a as [|ev a IH]; intros Hno; [reflexivity|].
  destruct ev; cbn in Hno |- *; try discriminate; auto.
Qed.

(** With no client in hand the first attempt fails on the attribute lookup,
    which is not a connection error: nothing is sent. *)
Lemma write_loop_none (env : Environment) (key value : string) (n : nat)
    (attempts : list nat) (w : World) :
  PublicIp.write_loop env key value n attempts None w =
  (Ret (match attempts with
        | [] => Finished None
        | _ :: _ => Returned false
        end), w).
Proof. destruct attempts; reflexivity. Qed.

Lemma write_loop_spec (env : Environment) (key value : string) (n : nat)
    (attempts : list nat) :
  forall client w seen prev,
  (seen = true -> forall h, client = Some h -> prev = Some (EvPing h RedisOk)) ->
  exists out w' evs,
    PublicIp.write_loop env key value n attempts client w = (Ret out, w') /\
    trace w' = trace w ++ evs /\
    http_requests evs = [] /\
    length (set_attempts evs) <= length attempts /\
    only_connection_failures_retried evs = true /\
    pinged_before_resend seen prev evs = true /\
    (sleeps evs = [] \/
     exists a, In a attempts /\ a < n - 1 /\ sleeps evs = [2 ^ a] /\
               out <> Returned true) /\
    match out with
    | Returned true =>
        exists pre h, evs = pre ++ [EvSet h key value RedisOk] /\ store_writes pre = []
    | _ => store_writes evs = []
    end.
Proof.
  induction attempts as [|a rest IH]; intros client w seen prev Hprev.
  - exists (Finished client), w, []. cbn. repeat split; try trace_eq; auto.
  - destruct client as [h|].
    2:{ rewrite write_loop_none. exists (Returned false), w, [].
        cbn. repeat split; try trace_eq; auto; lia. }
    assert (Hhead : (if seen
                     then match prev with
                          | Some (EvPing h' RedisOk) => h' =? h
                          | _ => false
                          end
                     else true) = true).
    { destruct seen; [|reflexivity].
      rewrite (Hprev eq_refl h eq_refl). apply Nat.eqb_refl. }
    unfold PublicIp.write_loop in *. cbn [for_loop].
    unfold PublicIp.write_attempt at 1.
    destruct w as [c nh t tr]. run_monad.
    destruct (set_reply env t h key value) eqn:Hreply; run_monad.
    + (* acknowledged *)
      do 3 eexists. split; [reflexivity|]. cbn [trace].
      split; [trace_eq|]. cbn. rewrite Hhead.
      repeat split; auto; try lia.
      exists [], h. split; reflexivity.
    + (* connection failure *)
      destruct (a <? n - 1) eqn:Hlast.
      * destruct (get_redis_client_returns env true
                    (mkWorld c nh (S t) (tr ++ [EvSet h key value RedisConnectionFailure])))
          as (r & w1 & evg & Hg & Htrg & Hcg & Hsl & Hset & Hhttp & Hping).
        cbn [trace] in Htrg. rewrite Hg.
        apply Nat.ltb_lt in Hlast.
        destruct r as [h'|]; cbn [negb].
        -- destruct (Hping h' eq_refl) as (pre & ->).
           destruct (IH (Some h') w1 true (Some (EvPing h' RedisOk)))
             as (out & w' & evs & Hrun & Htr & Hh & Hn & Hocf & Hpbr & Hsleep & Hout).
           { intros _ h0 [= <-]. reflexivity. }
           exists out, w', (EvSet h key value RedisConnectionFailure
                            :: (pre ++ [EvPing h' RedisOk]) ++ evs).
           split; [exact Hrun|].
           split; [rewrite Htr, Htrg; trace_eq|].
           split; [cbn; rewrite http_requests_app, Hhttp, Hh; reflexivity|].
           split; [cbn; rewrite set_attempts_app, Hset; cbn; lia|].
           split; [rewrite retried_after_connection_failure, retried_skip; assumption|].
           split.
           { cbn [pinged_before_resend]. rewrite Hhead. cbn [andb].
             rewrite <- app_assoc. cbn [app].
             rewrite pinged_after by exact Hset. exact Hpbr. }
           split.
           { cbn [sleeps]. rewrite sleeps_app, Hsl. cbn [app].
             destruct Hsleep as [Hs | (a' & Hin & Hlt & Hs & Hne)];
               [left; exact Hs|right].
             exists a'. repeat split; try assumption. right; exact Hin. }
           destruct out as [l|[|]].
           ++ cbn. rewrite store_writes_app, (store_writes_no_sets _ Hset). exact Hout.
           ++ destruct Hout as (pre' & h0 & -> & Hpre').
              exists (EvSet h key value RedisConnectionFailure
                      :: (pre ++ [EvPing h' RedisOk]) ++ pre'), h0.
              split; [cbn; rewrite <- !app_assoc; reflexivity|].
              cbn. rewrite store_writes_app, (store_writes_no_sets _ Hset). exact Hpre'.
           ++ cbn. rewrite store_writes_app, (store_writes_no_sets _ Hset). exact Hout.
        -- change (for_loop rest (PublicIp.write_attempt env key value n) None)
             with (PublicIp.write_loop env key value n rest None).
           rewrite write_loop_none.
           eexists _, _, (EvSet h key value RedisConnectionFailure
                          :: evg ++ [EvSleep (2 ^ a)]).
           split; [reflexivity|]. cbn [trace].
           split; [rewrite Htrg; trace_eq|].
           split; [cbn; rewrite http_requests_app, Hhttp; reflexivity|].
           split; [cbn; rewrite set_attempts_app, Hset; cbn; lia|].
           split; [rewrite retried_after_connection_failure, retried_skip by assumption;
                   reflexivity|].
           split.
           { cbn [pinged_before_resend]. rewrite Hhead. cbn [andb].
             apply pinged_no_sets. rewrite set_attempts_app, Hset. reflexivity. }
           split.
           { right. exists a. repeat split.
             - left; reflexivity.
             - exact Hlast.
             - cbn [sleeps]. rewrite sleeps_app, Hsl. reflexivity.
             - destruct rest; discriminate. }
           assert (Hw : store_writes (EvSet h key value RedisConnectionFailure
                                      :: evg ++ [EvSleep (2 ^ a)]) = []).
           { cbn. rewrite store_writes_app, (store_writes_no_sets _ Hset). reflexivity. }
           destruct rest; exact Hw.
      * do 3 eexists. split; [reflexivity|]. cbn [trace].
        split; [trace_eq|]. cbn. rewrite Hhead.
        repeat split; auto; try lia.
    + (* another failure *)
      do 3 eexists. split; [reflexivity|]. cbn [trace].
      split; [trace_eq|]. cbn. rewrite Hhead.
      repeat split; auto; try lia.
Qed.

Lemma post_with_retry_spec (env : Environment) (key value : string)
    (client : option handle) (n : nat) (w : World) :
  exists b w' evs,
    PublicIp.post_with_retry env key value client n w = (Ret b, w') /\
    trace w' = trace w ++ evs /\
    http_requests evs = [] /\
    length (set_attempts evs) <= n /\
    only_connection_failures_retried evs = true /\
    pinged_before_resend false None evs = true /\
    (sleeps evs = [] \/
     exists a, a < n - 1 /\ sleeps evs = [2 ^ a] /\ b = false) /\
    if b
    then exists pre h, evs = pre ++ [EvSet h key value RedisOk] /\ store_writes pre = []
    else store_writes evs = [].
Proof.
  unfold PublicIp.post_with_retry.
  assert (Hloop : forall h w0 prev,
    exists b w' evs,
      (out <- PublicIp.write_loop env key value n (range n) (Some h) ;;
       match out with
       | Returned b => ret b
       | Finished _ => ret false
       end) w0 = (Ret b, w') /\
      trace w' = trace w0 ++ evs /\
      http_requests evs = [] /\
      length (set_attempts evs) <= n /\
      only_connection_failures_retried evs = true /\
      pinged_before_resend false prev evs = true /\
      (sleeps evs = [] \/
       exists a, a < n - 1 /\ sleeps evs = [2 ^ a] /\ b = false) /\
      if b
      then exists pre h, evs = pre ++ [EvSet h key value RedisOk] /\ store_writes pre = []
      else store_writes evs = []).
  { intros h w0 prev. unfold bind.
    destruct (write_loop_spec env key value n (range n) (Some h) w0 false prev)
      as (out & w' & evs & Hrun & Htr & Hh & Hn & Hocf & Hpbr & Hsleep & Hout);
      [discriminate|].
    rewrite Hrun. unfold range in Hn. rewrite length_seq in Hn.
    destruct out as [l|[|]]; unfold ret.
    - exists false, w', evs. repeat split; try assumption.
      destruct Hsleep as [Hs | (a & _ & Hlt & Hs & _)]; [left; exact Hs|right].
      exists a. repeat split; assumption.
    - exists true, w', evs. repeat split; try assumption.
      destruct Hsleep as [Hs | (a & _ & _ & _ & Hne)]; [left; exact Hs|].
      exfalso; apply Hne; reflexivity.
    - exists false, w', evs. repeat split; try assumption.
      destruct Hsleep as [Hs | (a & _ & Hlt & Hs & _)]; [left; exact Hs|right].
      exists a. repeat split; assumption. }
  destruct client as [h|]; cbn [Py.is_some negb].
  - unfold bind at 1. unfold ret at 1. cbn [Py.is_some negb].
    apply Hloop.
  - unfold bind at 1.
    destruct (get_redis_client_returns env true w)
      as (r & w1 & evg & Hg & Htrg & Hcg & Hsl & Hset & Hhttp & Hping).
    rewrite Hg. destruct r as [h|]; cbn [Py.is_some negb].
    + destruct (Hping h eq_refl) as (pre & ->).
      destruct (Hloop h w1 (Some (EvPing h RedisOk)))
        as (b & w' & evs & Hrun & Htr & Hh & Hn & Hocf & Hpbr & Hsleep & Hout).
      exists b, w', ((pre ++ [EvPing h RedisOk]) ++ evs).
      split; [exact Hrun|].
      split; [rewrite Htr, Htrg; trace_eq|].
      split; [rewrite http_requests_app, Hhttp, Hh; reflexivity|].
      split; [rewrite set_attempts_app, Hset; exact Hn|].
      split; [rewrite retried_skip; assumption|].
      split; [rewrite <- app_assoc; cbn [app];
              rewrite pinged_after by exact Hset; exact Hpbr|].
      split; [rewrite sleeps_app, Hsl; exact Hsleep|].
      destruct b.
      * destruct Hout as (pre' & h0 & -> & Hpre').
        exists ((pre ++ [EvPing h RedisOk]) ++ pre'), h0.
        split; [rewrite <- !app_assoc; reflexivity|].
        rewrite store_writes_app, (store_writes_no_sets _ Hset). exact Hpre'.
      * rewrite store_writes_app, (store_writes_no_sets _ Hset). exact Hout.
    + exists false, w1, evg. unfold ret.
      repeat split; try assumption; try lia.
      * rewrite Hset. cbn. lia.
      * rewrite <- (app_nil_r evg). rewrite retried_skip by assumption. reflexivity.
      * apply pinged_no_sets. assumption.
      * left. assumption.
      * apply store_writes_no_sets. assumption.
Qed.



(** ** The poll loop *)

Ltac run_main :=
  cbv [bind ret raise try_except get_state modify sleep emit
       PublicIp.lift PublicIp.update PublicIp.read PublicIp.incr_errors
       PublicIp.set_iteration PublicIp.set_consecutive_errors
       PublicIp.set_last_successful_ip PublicIp.set_redis_client
       PublicIp.faulted PublicIp.probe_fault PublicIp.publish_fault
       PublicIp.post_to_redis PublicIp.json_dumps
       PublicIp.max_consecutive_errors PublicIp.sleep_interval];
  cbn [PublicIp.locals PublicIp.world PublicIp.iteration
       PublicIp.consecutive_errors PublicIp.last_successful_ip
       PublicIp.redis_client cached_client next_handle clock trace].

Lemma store_events_no_writes (a : list Event) :
  store_events a = [] -> store_writes a = [] /\ set_attempts a = [].
Proof.
  induction a as [|ev a IH]; intros Hno; [split; reflexivity|].
  destruct ev; cbn in Hno |- *; try discriminate; auto.
Qed.

Lemma opt_str_eqb_spec (a b : option string) :
  Py.opt_str_eqb a b = true <-> a = b.
Proof.
  destruct a as [x|], b as [y|]; cbn; try (split; congruence).
  rewrite String.eqb_eq. split; congruence.
Qed.

Lemma valid_address_truthy (body : string) :
  valid_address body = true -> Py.str_truthy (Py.strip body) = true.
Proof. unfold valid_address. intros H. apply andb_prop in H. apply H. Qed.

(** The exception handler of the loop, from the state the body left. *)
Lemma on_exception_spec (env : Environment) (it c : nat) (last : option string)
    (rc : option handle) (w : World) :
  exists r s' evs,
    PublicIp.on_exception env (PublicIp.mkMain (PublicIp.mkLocals it c last rc) w)
      = (Ret r, s') /\
    trace (PublicIp.world s') = trace w ++ evs /\
    PublicIp.iteration (PublicIp.locals s') = it /\
    PublicIp.last_successful_ip (PublicIp.locals s') = last /\
    match r with
    | PublicIp.BackedOff n =>
        c + 1 < 10 /\ n = Nat.min (2 ^ (c + 1)) 60 /\
        PublicIp.consecutive_errors (PublicIp.locals s') = c + 1 /\
        PublicIp.redis_client (PublicIp.locals s') = rc /\
        cached_client (PublicIp.world s') = cached_client w /\
        evs = [EvSleep n]
    | PublicIp.CooledDown =>
        10 <= c + 1 /\
        PublicIp.consecutive_errors (PublicIp.locals s') = 0 /\
        PublicIp.redis_client (PublicIp.locals s') = cached_client (PublicIp.world s') /\
        exists evg, evs = EvSleep 300 :: evg /\
                    sleeps evg = [] /\ set_attempts evg = [] /\ http_requests evg = []
    | _ => False
    end.
Proof.
  unfold PublicIp.on_exception. run_main.
  destruct (10 <=? c + 1) eqn:Hesc; run_main.
  - destruct (get_redis_client_returns env true
                (mkWorld (cached_client w) (next_handle w) (clock w)
                   (trace w ++ [EvSleep 300])))
      as (r & w1 & evg & Hg & Htrg & Hcg & Hsl & Hset & Hhttp & _).
    rewrite Hg. cbn [trace] in Htrg.
    do 3 eexists. split; [reflexivity|]. cbn.
    split; [rewrite Htrg, <- app_assoc; reflexivity|].
    repeat split; try assumption.
    + apply Nat.leb_le in Hesc. exact Hesc.
    + symmetry; exact Hcg.
    + exists evg. repeat split; assumption.
  - do 3 eexists. split; [reflexivity|]. cbn.
    split; [reflexivity|]. repeat split.
    apply Nat.leb_gt in Hesc. lia.
Qed.

(** The [try] block.  It raises only what a fault raises; otherwise it ends
    with the schedule sleep. *)
Lemma iteration_body_spec (env : Environment) (f : PublicIp.Fault)
    (it c : nat) (last : option string) (rc : option handle) (w : World) :
  exists r s' evs,
    PublicIp.iteration_body env f (PublicIp.mkMain (PublicIp.mkLocals it c last rc) w)
      = (r, s') /\
    trace (PublicIp.world s') = trace w ++ evs /\
    PublicIp.iteration (PublicIp.locals s') = it /\
    PublicIp.redis_client (PublicIp.locals s') = rc /\
    match r with
    | Ret (PublicIp.Published ip) =>
        PublicIp.consecutive_errors (PublicIp.locals s') = 0 /\
        PublicIp.last_successful_ip (PublicIp.locals s') = Some ip /\
        last <> Some ip /\
        exists body, evs = body ++ [EvSleep 60] /\
                     store_writes body = [(PublicIp.key, ip)]
    | Ret (PublicIp.Skipped ip) =>
        PublicIp.consecutive_errors (PublicIp.locals s') = 0 /\
        PublicIp.last_successful_ip (PublicIp.locals s') = last /\
        last = Some ip /\
        cached_client (PublicIp.world s') = cached_client w /\
        exists body, evs = body ++ [EvSleep 60] /\ store_events body = []
    | Ret (PublicIp.PublishFailed ip) =>
        PublicIp.consecutive_errors (PublicIp.locals s') = c + 1 /\
        PublicIp.last_successful_ip (PublicIp.locals s') = last /\
        last <> Some ip /\
        exists body, evs = body ++ [EvSleep 60] /\ store_writes body = []
    | Ret PublicIp.ProbeFailed =>
        PublicIp.consecutive_errors (PublicIp.locals s') = c + 1 /\
        PublicIp.last_successful_ip (PublicIp.locals s') = last /\
        cached_client (PublicIp.world s') = cached_client w /\
        exists body, evs = body ++ [EvSleep 60] /\ store_events body = []
    | Ret _ => False
    | Raise e =>
        (f = PublicIp.FaultInProbe e \/ f = PublicIp.FaultInPublish e) /\
        PublicIp.locals s' = PublicIp.mkLocals it c last rc /\
        cached_client (PublicIp.world s') = cached_client w /\
        store_events evs = []
    end.
Proof.
  unfold PublicIp.iteration_body.
  destruct f as [|e|e]; run_main.
  2:{ exists (Raise e), (PublicIp.mkMain (PublicIp.mkLocals it c last rc) w), [].
      cbn. repeat split; try trace_eq. left; reflexivity. }
  all: destruct (get_public_ip_spec env 3 w)
         as (r & w1 & evp & Hp & Htrp & Hcp & Hsep & _ & Hr);
       rewrite Hp; run_main.
  all: destruct r as [ip|]; cbn [Py.truthy].
  all: try (destruct Hr as (pre & service & body & Hevp & _ & Hip & Hvalid & _);
            rewrite Hip, (valid_address_truthy _ Hvalid), <- Hip; run_main).
  all: try (destruct (Py.opt_str_eqb (Some ip) last) eqn:Hsame; cbn [negb]; run_main;
            [apply opt_str_eqb_spec in Hsame|
             assert (Hdiff : last <> Some ip)
               by (intros Heq; symmetry in Heq; apply opt_str_eqb_spec in Heq; congruence)]).
  (* NoFault, address unchanged *)
  - do 3 eexists. split; [reflexivity|]. cbn.
    split; [rewrite Htrp, <- app_assoc; reflexivity|].
    repeat split; try congruence. exists evp. split; [reflexivity|assumption].
  (* NoFault, address to publish *)
  - destruct (post_with_retry_spec env PublicIp.key ip rc 3 w1)
      as (b & w2 & evq & Hq & Htrq & _ & _ & _ & _ & _ & Hb).
    rewrite Hq. destruct b; run_main.
    + do 3 eexists. split; [reflexivity|]. cbn.
      split; [rewrite Htrq, Htrp, <- !app_assoc; reflexivity|].
      repeat split; try assumption.
      exists (evp ++ evq). split; [rewrite <- app_assoc; reflexivity|].
      destruct Hb as (pre' & h & -> & Hpre').
      rewrite !store_writes_app, Hpre'.
      destruct (store_events_no_writes _ Hsep) as [-> _]. reflexivity.
    + do 3 eexists. split; [reflexivity|]. cbn.
      split; [rewrite Htrq, Htrp, <- !app_assoc; reflexivity|].
      repeat split; try assumption.
      exists (evp ++ evq). split; [rewrite <- app_assoc; reflexivity|].
      rewrite store_writes_app, Hb.
      destruct (store_events_no_writes _ Hsep) as [-> _]. reflexivity.
  (* NoFault, probe failed *)
  - do 3 eexists. split; [reflexivity|]. cbn.
    split; [rewrite Htrp, <- app_assoc; reflexivity|].
    repeat split; try assumption. exists evp. split; [reflexivity|assumption].
  (* FaultInPublish, address unchanged *)
  - do 3 eexists. split; [reflexivity|]. cbn.
    split; [rewrite Htrp, <- app_assoc; reflexivity|].
    repeat split; try congruence. exists evp. split; [reflexivity|assumption].
  (* FaultInPublish, address to publish *)
  - exists (Raise e), (PublicIp.mkMain (PublicIp.mkLocals it c last rc) w1), evp.
    cbn. repeat split; try assumption. right; reflexivity.
  (* FaultInPublish, probe failed *)
  - do 3 eexists. split; [reflexivity|]. cbn.
    split; [rewrite Htrp, <- app_assoc; reflexivity|].
    repeat split; try assumption. exists evp. split; [reflexivity|assumption].
Qed.

(** One turn of the loop: every way it can end, and what it leaves behind. *)
Lemma loop_iteration_spec (env : Environment) (f : PublicIp.Fault)
    (it c : nat) (last : option string) (rc : option handle) (w : World) :
  exists r s' evs,
    PublicIp.loop_iteration env f (PublicIp.mkMain (PublicIp.mkLocals it c last rc) w)
      = (r, s') /\
    trace (PublicIp.world s') = trace w ++ evs /\
    PublicIp.iteration (PublicIp.locals s') = it + 1 /\
    match r with
    | Ret (PublicIp.Published ip) =>
        PublicIp.consecutive_errors (PublicIp.locals s') = 0 /\
        PublicIp.last_successful_ip (PublicIp.locals s') = Some ip /\
        last <> Some ip /\
        PublicIp.redis_client (PublicIp.locals s') = rc /\
        exists body, evs = body ++ [EvSleep 60] /\
                     store_writes body = [(PublicIp.key, ip)]
    | Ret (PublicIp.Skipped ip) =>
        PublicIp.consecutive_errors (PublicIp.locals s') = 0 /\
        PublicIp.last_successful_ip (PublicIp.locals s') = last /\
        last = Some ip /\
        PublicIp.redis_client (PublicIp.locals s') = rc /\
        exists body, evs = body ++ [EvSleep 60] /\ store_events body = []
    | Ret (PublicIp.PublishFailed ip) =>
        PublicIp.consecutive_errors (PublicIp.locals s') = c + 1 /\
        PublicIp.last_successful_ip (PublicIp.locals s') = last /\
        last <> Some ip /\
        PublicIp.redis_client (PublicIp.locals s') = rc /\
        exists body, evs = body ++ [EvSleep 60] /\ store_writes body = []
    | Ret PublicIp.ProbeFailed =>
        PublicIp.consecutive_errors (PublicIp.locals s') = c + 1 /\
        PublicIp.last_successful_ip (PublicIp.locals s') = last /\
        PublicIp.redis_client (PublicIp.locals s') = rc /\
        exists body, evs = body ++ [EvSleep 60] /\ store_events body = []
    | Ret (PublicIp.BackedOff n) =>
        (exists e, (f = PublicIp.FaultInProbe e \/ f = PublicIp.FaultInPublish e) /\
                   is_Exception e = true) /\
        c + 1 < 10 /\ n = Nat.min (2 ^ (c + 1)) 60 /\
        PublicIp.consecutive_errors (PublicIp.locals s') = c + 1 /\
        PublicIp.last_successful_ip (PublicIp.locals s') = last /\
        PublicIp.redis_client (PublicIp.locals s') = rc /\
        exists body, evs = body ++ [EvSleep n] /\ store_events body = []
    | Ret PublicIp.CooledDown =>
        (exists e, (f = PublicIp.FaultInProbe e \/ f = PublicIp.FaultInPublish e) /\
                   is_Exception e = true) /\
        10 <= c + 1 /\
        PublicIp.consecutive_errors (PublicIp.locals s') = 0 /\
        PublicIp.last_successful_ip (PublicIp.locals s') = last /\
        PublicIp.redis_client (PublicIp.locals s') = cached_client (PublicIp.world s') /\
        exists body evg, evs = body ++ EvSleep 300 :: evg /\ store_events body = [] /\
                         sleeps evg = [] /\ set_attempts evg = []
    | Raise e =>
        is_Exception e = false /\
        (f = PublicIp.FaultInProbe e \/ f = PublicIp.FaultInPublish e) /\
        PublicIp.locals s' = PublicIp.mkLocals (it + 1) c last rc
    end.
Proof.
  unfold PublicIp.loop_iteration.
  unfold bind at 1. unfold PublicIp.update at 1. unfold modify at 1.
  unfold PublicIp.set_iteration.
  cbn [PublicIp.locals PublicIp.world PublicIp.iteration
       PublicIp.consecutive_errors PublicIp.last_successful_ip PublicIp.redis_client].
  unfold try_except.
  destruct (iteration_body_spec env f (it + 1) c last rc w)
    as (r & s1 & evs & Hrun & Htr & Hit & Hrc & Hr).
  rewrite Hrun.
  destruct r as [ended|e].
  - exists (Ret ended), s1, evs. split; [reflexivity|].
    split; [exact Htr|]. split; [exact Hit|].
    destruct ended; try contradiction; intuition.
  - destruct Hr as (Hf & Hloc & Hc & Hse).
    destruct s1 as [l1 w1]. cbn in Hloc, Hc, Htr. subst l1.
    destruct (is_Exception e) eqn:Hexn.
    + destruct (on_exception_spec env (it + 1) c last rc w1)
        as (r & s' & evh & Hh & Htrh & Hith & Hlast & Hr).
      rewrite Hh. exists (Ret r), s', (evs ++ evh).
      split; [reflexivity|].
      split; [rewrite Htrh, Htr, app_assoc; reflexivity|].
      split; [exact Hith|].
      destruct r; try contradiction.
      * destruct Hr as (Hlt & Hn & Hce & Hrc' & _ & ->).
        repeat split; try assumption.
        -- exists e. split; assumption.
        -- exists evs. split; [reflexivity|assumption].
      * destruct Hr as (Hge & Hce & Hrc' & evg & -> & Hsl & Hset & _).
        repeat split; try assumption.
        -- exists e. split; assumption.
        -- exists evs, evg. repeat split; assumption.
    + exists (Raise e), (PublicIp.mkMain (PublicIp.mkLocals (it + 1) c last rc) w1), evs.
      split; [reflexivity|]. split; [exact Htr|]. split; [reflexivity|].
      repeat split; assumption.
Qed.

(** ** The loop over an inert store *)



(** ** Change detection over several iterations *)


(** ** One write attempt, case by case *)

Lemma write_attempt_acknowledged (env : Environment) (key value : string)
    (attempt : nat) (h : handle) (w : World) :
  set_reply env (clock w) h key value = RedisOk ->
  PublicIp.write_attempt env key value 3 attempt (Some h) w =
  (Ret (Return true), tick (emit (EvSet h key value RedisOk) w)).
Proof.
  intros Hreply. destruct w as [c nh t tr]. cbn in Hreply.
  unfold PublicIp.write_attempt. run_monad. rewrite Hreply. reflexivity.
Qed.




(** ** The cached client, case by case *)

Lemma cached_client_reused (env : Environment) (retry : bool) (h : handle) (w : World) :
  cached_client w = Some h ->
  ping_reply env (clock w) h = RedisOk ->
  PublicIp.get_redis_client env retry w =
  (Ret (Some h), tick (emit (EvPing h RedisOk) w)).
Proof.
  intros Hc Hping. destruct w as [c nh t tr]. cbn in Hc, Hping. subst c.
  unfold PublicIp.get_redis_client. run_monad. rewrite Hping. reflexivity.
Qed.


Lemma fresh_connect (env : Environment) (retry : bool) (w : World) :
  cached_client w = None ->
  store_configured env ->
  ping_reply env (clock w) (next_handle w) = RedisOk ->
  PublicIp.get_redis_client env retry w =
  (Ret (Some (next_handle w)),
   set_cached (Some (next_handle w))
     (tick (emit (EvPing (next_handle w) RedisOk)
              (bump_handle (emit (EvNewClient (next_handle w)) w))))).
Proof.
  intros Hc [Hhost Hport] Hping. destruct w as [c nh t tr]. cbn in Hc, Hping. subst c.
  unfold PublicIp.get_redis_client. run_monad.
  destruct (Py.int (getenv_default env "REDIS_PORT" "6379")); [|congruence].
  run_monad. rewrite Hhost. run_monad. rewrite Hping. reflexivity.
Qed.



(** * The claims *)

(** ** Backoff and escalation *)

(** What the [except] block does: an exception in the body moves the counter
    to [c + 1]; below ten the loop sleeps [min (2 ^ (c + 1)) 60] seconds and
    nothing else, from ten on it sleeps 300 seconds and starts again at 0. *)
Lemma exception_backoff_policy (env : Environment) (e : Exn)
    (it c : nat) (last : option string) (rc : option handle) (w : World) :
  is_Exception e = true ->
  exists s' evs,
    trace (PublicIp.world s') = trace w ++ evs /\
    if c + 1 <? 10
    then PublicIp.loop_iteration env (PublicIp.FaultInProbe e)
           (PublicIp.mkMain (PublicIp.mkLocals it c last rc) w)
         = (Ret (PublicIp.BackedOff (Nat.min (2 ^ (c + 1)) 60)), s') /\
         PublicIp.consecutive_errors (PublicIp.locals s') = c + 1 /\
         evs = [EvSleep (Nat.min (2 ^ (c + 1)) 60)]
    else PublicIp.loop_iteration env (PublicIp.FaultInProbe e)
           (PublicIp.mkMain (PublicIp.mkLocals it c last rc) w)
         = (Ret PublicIp.CooledDown, s') /\
         PublicIp.consecutive_errors (PublicIp.locals s') = 0 /\
         exists evg, evs = EvSleep 300 :: evg /\ sleeps evg = [].
Proof.
  intros Hexn.
  unfold PublicIp.loop_iteration, PublicIp.iteration_body, PublicIp.on_exception.
  run_main. rewrite Hexn. run_main.
  destruct (c + 1 <? 10) eqn:Hlt.
  - apply Nat.ltb_lt in Hlt.
    assert (Hesc : (10 <=? c + 1) = false) by (apply Nat.leb_gt; exact Hlt).
    rewrite Hesc. run_main.
    do 2 eexists. split; cycle 1.
    + split; [reflexivity|]. split; reflexivity.
    + reflexivity.
  - apply Nat.ltb_ge in Hlt.
    assert (Hesc : (10 <=? c + 1) = true) by (apply Nat.leb_le; exact Hlt).
    rewrite Hesc. run_main.
    destruct (get_redis_client_returns env true
                (mkWorld (cached_client w) (next_handle w) (clock w)
                   (trace w ++ [EvSleep 300])))
      as (r & w1 & evg & Hg & Htrg & _ & Hsl & _).
    rewrite Hg. cbn [trace] in Htrg.
    exists (PublicIp.mkMain (PublicIp.mkLocals (it + 1) 0 last r) w1),
           (EvSleep 300 :: evg).
    split; [cbn; rewrite Htrg, <- app_assoc; reflexivity|].
    repeat split. exists evg. split; [reflexivity|assumption].
Qed.

(** What the [try] block does with a failure it sees itself: whatever the
    counter was, it goes up by one and the iteration ends with the schedule
    sleep of 60 seconds; the threshold is not looked at. *)
Lemma seen_failure_sleeps_the_interval (env : Environment) (f : PublicIp.Fault)
    (it c : nat) (last : option string) (rc : option handle) (w : World)
    (e : PublicIp.IterationEnd) (s' : PublicIp.MainState) :
  PublicIp.loop_iteration env f (PublicIp.mkMain (PublicIp.mkLocals it c last rc) w)
    = (Ret e, s') ->
  e = PublicIp.ProbeFailed \/ (exists ip, e = PublicIp.PublishFailed ip) ->
  PublicIp.consecutive_errors (PublicIp.locals s') = c + 1 /\
  exists body, trace (PublicIp.world s') = trace w ++ body ++ [EvSleep 60].
Proof.
  intros Hrun He.
  destruct (loop_iteration_spec env f it c last rc w)
    as (r & s1 & evs & Hrun1 & Htr & _ & Hr).
  rewrite Hrun in Hrun1. injection Hrun1 as <- <-.
  destruct He as [-> | (ip & ->)].
  - destruct Hr as (Hc & _ & _ & body & -> & _).
    split; [exact Hc|]. exists body. exact Htr.
  - destruct Hr as (Hc & _ & _ & _ & body & -> & _).
    split; [exact Hc|]. exists body. exact Htr.
Qed.

(** C1, where the code departs from the claim.  Every lookup fails twelve
    times in a row (Scenario B): each of the twelve iterations ends as a probe
    failure and sleeps the schedule interval of 60 seconds, the tenth
    included; there is no backoff of [min (2 ^ f) 60] seconds, no cooldown of
    300 seconds, and the counter runs on to 12 without being reset. *)
Theorem C1_probe_failures_keep_the_schedule_sleep :
  fst (PublicIp.run_loop env_all_down (repeat PublicIp.NoFault 12) start)
    = Ret (repeat PublicIp.ProbeFailed 12) /\
  sleeps (trace (PublicIp.world
            (snd (PublicIp.run_loop env_all_down (repeat PublicIp.NoFault 12) start))))
    = repeat 60 12 /\
  PublicIp.consecutive_errors (PublicIp.locals
     (snd (PublicIp.run_loop env_all_down (repeat PublicIp.NoFault 10) start))) = 10 /\
  PublicIp.consecutive_errors (PublicIp.locals
     (snd (PublicIp.run_loop env_all_down (repeat PublicIp.NoFault 12) start))) = 12.
Proof. vm_compute. repeat split. Qed.

(** ** The failure counter *)



(** ** Change detection *)



(** ** The store without a host *)





(** ** The probe *)

(** C5.  The probe never raises.  It asks the three services in their order,
    each at most three times.  A timeout before the last attempt is followed
    by a sleep of [2 ^ attempt] seconds and another request to the same
    service; any other request error ends the attempts on that service at
    once.  An address it returns is the body of the last request, before
    which no reply was acceptable, so nothing is asked after the first valid
    address: when the first service answers with one, that is the only
    request; when the first service times out three times and the second
    answers, the second's address is returned.  When no reply is acceptable
    the result is [None], after every service was asked. *)
Theorem C5_probe_order_and_retries (env : Environment) :
  (forall w,
      exists r w' evs,
        PublicIp.get_public_ip env 3 w = (Ret r, w') /\
        trace w' = trace w ++ evs /\
        (exists k1 k2 k3,
            k1 <= 3 /\ k2 <= 3 /\ k3 <= 3 /\
            http_requests evs =
              repeat "https://api.ipify.org?format=text" k1
              ++ repeat "https://ifconfig.me/ip" k2
              ++ repeat "https://icanhazip.com" k3 /\
            (r = None -> 1 <= k1 /\ 1 <= k2 /\ 1 <= k3)) /\
        match r with
        | Some ip =>
            exists pre service body,
              evs = pre ++ [EvHttpGet service (Replied 200 body)] /\
              ip = Py.strip body /\ valid_address body = true /\
              existsb accepted_event pre = false
        | None => existsb accepted_event evs = false
        end) /\
  (forall service attempt rest w,
      http_reply env (clock w) service = HttpTimeout ->
      attempt < 2 ->
      PublicIp.try_service env 3 service (attempt :: rest) w =
      PublicIp.try_service env 3 service rest
        (emit (EvSleep (2 ^ attempt))
           (tick (emit (EvHttpGet service HttpTimeout) w)))) /\
  (forall service attempt rest w,
      http_reply env (clock w) service = HttpRequestError ->
      PublicIp.try_service env 3 service (attempt :: rest) w =
      (Ret (Finished tt), tick (emit (EvHttpGet service HttpRequestError) w))) /\
  (forall w body,
      http_reply env (clock w) "https://api.ipify.org?format=text" = Replied 200 body ->
      valid_address body = true ->
      PublicIp.get_public_ip env 3 w =
      (Ret (Some (Py.strip body)),
       tick (emit (EvHttpGet "https://api.ipify.org?format=text" (Replied 200 body)) w))) /\
  (forall w body,
      http_reply env (clock w) "https://api.ipify.org?format=text" = HttpTimeout ->
      http_reply env (S (clock w)) "https://api.ipify.org?format=text" = HttpTimeout ->
      http_reply env (S (S (clock w))) "https://api.ipify.org?format=text" = HttpTimeout ->
      http_reply env (S (S (S (clock w)))) "https://ifconfig.me/ip" = Replied 200 body ->
      valid_address body = true ->
      exists w',
        PublicIp.get_public_ip env 3 w = (Ret (Some (Py.strip body)), w') /\
        trace w' = trace w ++
          [ EvHttpGet "https://api.ipify.org?format=text" HttpTimeout; EvSleep 1;
            EvHttpGet "https://api.ipify.org?format=text" HttpTimeout; EvSleep 2;
            EvHttpGet "https://api.ipify.org?format=text" HttpTimeout;
            EvHttpGet "https://ifconfig.me/ip" (Replied 200 body) ]).
Proof.
  split; [|split; [|split; [|split]]].
  - intros w.
    destruct (get_public_ip_spec env 3 w)
      as (r & w' & evs & Hrun & Htr & _ & _ & (k1 & k2 & k3 & H1 & H2 & H3 & Hreq & Hnone) & Hr).
    exists r, w', evs. split; [exact Hrun|]. split; [exact Htr|]. split.
    + exists k1, k2, k3. do 4 (split; [assumption|]).
      intros Hn. apply Hnone; [exact Hn|lia].
    + destruct r as [ip|]; [|exact Hr].
      destruct Hr as (pre & service & body & Hevs & _ & Hip & Hv & Hpre).
      exists pre, service, body. repeat split; assumption.
  - intros service attempt rest w. apply try_service_timeout.
  - intros service attempt rest w Hreply.
    apply (try_service_request_error env service attempt rest w _ Hreply).
    left; reflexivity.
  - intros w body. apply first_service_wins.
  - intros w body. apply second_service_after_timeouts.
Qed.

(** C5 at work: 203.0.113.7 from the first service; 198.51.100.9 from the
    second after the first timed out; a connection error on the first. *)
Lemma C5_witness :
  let s1 := "https://api.ipify.org?format=text" in
  (http_reply env_healthy (clock initial_world) s1 = Replied 200 "203.0.113.7" /\
   valid_address "203.0.113.7" = true /\
   PublicIp.get_public_ip env_healthy 3 initial_world =
   (Ret (Some (Py.strip "203.0.113.7")),
    tick (emit (EvHttpGet s1 (Replied 200 "203.0.113.7")) initial_world))) /\
  (http_reply env_first_times_out (clock initial_world) s1 = HttpTimeout /\
   0 < 2 /\
   PublicIp.try_service env_first_times_out 3 s1 [0; 1; 2] initial_world =
   PublicIp.try_service env_first_times_out 3 s1 [1; 2]
     (emit (EvSleep (2 ^ 0)) (tick (emit (EvHttpGet s1 HttpTimeout) initial_world)))) /\
  (http_reply env_all_down (clock initial_world) s1 = HttpRequestError /\
   PublicIp.try_service env_all_down 3 s1 [0; 1; 2] initial_world =
   (Ret (Finished tt), tick (emit (EvHttpGet s1 HttpRequestError) initial_world))) /\
  (valid_address "198.51.100.9" = true /\
   exists w',
     PublicIp.get_public_ip env_first_times_out 3 initial_world
       = (Ret (Some (Py.strip "198.51.100.9")), w') /\
     trace w' = trace initial_world ++
       [ EvHttpGet s1 HttpTimeout; EvSleep 1;
         EvHttpGet s1 HttpTimeout; EvSleep 2;
         EvHttpGet s1 HttpTimeout;
         EvHttpGet "https://ifconfig.me/ip" (Replied 200 "198.51.100.9") ]).
Proof.
  intros s1.
  destruct (C5_probe_order_and_retries env_healthy) as (_ & _ & _ & Hfirst & _).
  destruct (C5_probe_order_and_retries env_first_times_out) as (_ & Htimeout & _ & _ & Hsecond).
  destruct (C5_probe_order_and_retries env_all_down) as (_ & _ & Herror & _ & _).
  assert (Hv1 : valid_address "203.0.113.7" = true) by reflexivity.
  assert (Hv2 : valid_address "198.51.100.9" = true) by reflexivity.
  assert (Hlt : 0 < 2) by lia.
  split; [|split; [|split]].
  - split; [reflexivity|]. split; [exact Hv1|].
    exact (Hfirst initial_world "203.0.113.7" eq_refl Hv1).
  - split; [reflexivity|]. split; [exact Hlt|].
    exact (Htimeout s1 0 [1; 2] initial_world eq_refl Hlt).
  - split; [reflexivity|].
    exact (Herror s1 0 [1; 2] initial_world eq_refl).
  - split; [exact Hv2|].
    exact (Hsecond initial_world "198.51.100.9" eq_refl eq_refl eq_refl eq_refl Hv2).
Defined.

(** ** The publish pipeline *)



(** ** Connection resilience *)


Lemma host_only_configured (http : nat -> string -> HttpReply)
    (pings : nat -> handle -> RedisReply)
    (sets : nat -> handle -> string -> string -> RedisReply) :
  store_configured (mkEnv host_only http pings sets).
Proof. split; [reflexivity|]. vm_compute. discriminate. Qed.


(** ** Validation of the address *)

(** The probe of [public_ip.py] returns only stripped, non-empty bodies made
    of four fields separated by dots. *)
Lemma publishing_probe_validates (env : Environment) (n : nat) (w w' : World)
    (ip : string) :
  PublicIp.get_public_ip env n w = (Ret (Some ip), w') ->
  ip <> "" /\ length (Py.split "."%char ip) = 4 /\
  exists body, ip = Py.strip body /\ valid_address body = true.
Proof.
  intros Hrun.
  destruct (get_public_ip_spec env n w)
    as (r & w1 & evs & Hrun1 & _ & _ & _ & _ & Hr).
  rewrite Hrun in Hrun1. injection Hrun1 as <- <-.
  destruct Hr as (pre & service & body & _ & _ & Hip & Hv & _).
  pose proof Hv as Hv'. unfold valid_address in Hv'.
  apply andb_prop in Hv'. destruct Hv' as [Ht Hlen].
  rewrite <- Hip in Ht, Hlen. apply Nat.eqb_eq in Hlen.
  split; [intros ->; discriminate|]. split; [exact Hlen|].
  exists body. split; assumption.
Qed.

(** C8, where the code departs from the claim.  Every service answers with
    status 200 and the text of an error page.  The probe of [public_ip.py]
    rejects it and reports failure; the probe of [IPMonitor] checks only that
    the body is not empty and returns the page as the address. *)
Theorem C8_monitor_returns_unvalidated_body :
  valid_address "Service Unavailable" = false /\
  length (Py.split "."%char "Service Unavailable") = 1 /\
  fst (PublicIp.get_public_ip env_error_page 3 initial_world) = Ret None /\
  fst (IPMonitor.get_public_ip env_error_page initial_world)
    = Ret (Some "Service Unavailable").
Proof. vm_compute. repeat split. Qed.

(** ** A port that is not a number *)



(** * Further properties of the code *)

(** ** The store connection as a pool of one *)

(** X1.  [get_redis_client] never raises.  Whatever the store answers, a call
    makes at most two pings and builds at most one client, which takes the
    next free handle; it neither sleeps nor writes nor asks a lookup service;
    the module global ends up equal to the value returned, so the cached
    client is always the one last handed out; and a client that is returned
    answered the last ping of the call. *)
Theorem X1_get_redis_client_pool (env : Environment) (retry : bool) (w : World) :
  exists r w' evs,
    PublicIp.get_redis_client env retry w = (Ret r, w') /\
    trace w' = trace w ++ evs /\
    cached_client w' = r /\
    length evs <= 3 /\
    length (new_clients evs) <= 1 /\
    next_handle w' = next_handle w + length (new_clients evs) /\
    (forall h, In h (new_clients evs) -> h = next_handle w) /\
    clock w' <= clock w + 2 /\
    sleeps evs = [] /\ set_attempts evs = [] /\ http_requests evs = [] /\
    (forall h, r = Some h -> exists pre, evs = pre ++ [EvPing h RedisOk]).
Proof.
  destruct w as [c nh t tr].
  unfold PublicIp.get_redis_client. run_monad.
  repeat (break_match; run_monad; try discriminate).
  all: do 3 eexists; split; [reflexivity|]; cbn; split; [trace_eq|].
  all: cbn; repeat split; try discriminate; try lia.
  all: try solve [intros h' [Hh | []]; congruence].
  all: try solve [intros h' []].
  all: intros h' [= <-].
  - exists []; reflexivity.
  - eexists [_; _]; reflexivity.
  - eexists [_; _]; reflexivity.
  - eexists [_]; reflexivity.
Qed.

(** ** How much the probe can ask and wait *)

Lemma try_service_bounds (env : Environment) (n : nat) (service : string)
    (attempts : list nat) :
  forall w,
  exists out w' evs,
    PublicIp.try_service env n service attempts w = (Ret out, w') /\
    trace w' = trace w ++ evs /\
    length (http_requests evs) <= length attempts /\
    list_sum (sleeps evs)
      <= list_sum (map (fun a => if a <? n - 1 then 2 ^ a else 0) attempts) /\
    clock w' = clock w + length (http_requests evs) /\
    next_handle w' = next_handle w /\
    cached_client w' = cached_client w.
Proof.
  induction attempts as [|a rest IH]; intros w.
  - exists (Finished tt), w, []. cbn. repeat split; try trace_eq; lia.
  - unfold PublicIp.try_service in *. cbn [for_loop].
    unfold PublicIp.attempt_body at 1.
    destruct w as [c nh t tr]. run_monad.
    assert (Hstep : forall ev w1,
              http_requests [ev] = [service] -> sleeps [ev] = [] ->
              clock w1 = S t -> next_handle w1 = nh -> cached_client w1 = c ->
              (trace w1 = tr ++ [ev] \/
               ((a <? n - 1) = true /\ trace w1 = (tr ++ [ev]) ++ [EvSleep (2 ^ a)])) ->
              exists out w' evs,
                for_loop rest (PublicIp.attempt_body env n service) tt w1 = (Ret out, w') /\
                trace w' = tr ++ evs /\
                length (http_requests evs) <= S (length rest) /\
                list_sum (sleeps evs)
                  <= list_sum (map (fun a => if a <? n - 1 then 2 ^ a else 0) (a :: rest)) /\
                clock w' = t + length (http_requests evs) /\
                next_handle w' = nh /\ cached_client w' = c).
    { intros ev w1 Hreq1 Hsl1 Hck1 Hnh1 Hc1 Htr1.
      destruct (IH w1) as (out & w' & evs & Hrun & Htr & Hreq & Hsl & Hck & Hnh & Hc).
      cbn [map]. unfold list_sum in *. cbn [fold_right].
      destruct Htr1 as [Htr1 | [Hlt Htr1]].
      - exists out, w', (ev :: evs). split; [exact Hrun|].
        split; [rewrite Htr, Htr1; trace_eq|].
        change (ev :: evs) with ([ev] ++ evs).
        rewrite http_requests_app, sleeps_app, Hreq1, Hsl1. cbn [app length].
        repeat split; try congruence; lia.
      - exists out, w', (ev :: EvSleep (2 ^ a) :: evs). split; [exact Hrun|].
        split; [rewrite Htr, Htr1; trace_eq|].
        change (ev :: EvSleep (2 ^ a) :: evs) with ([ev] ++ EvSleep (2 ^ a) :: evs).
        rewrite http_requests_app, sleeps_app, Hreq1, Hsl1, Hlt.
        cbn [app length http_requests sleeps fold_right].
        repeat split; try congruence; lia. }
    destruct (http_reply env t service) as [st body| | |] eqn:Hreply; run_monad.
    + destruct (st =? 200); run_monad.
      * destruct (Py.str_truthy (Py.strip body)
                  && (length (Py.split "."%char (Py.strip body)) =? 4)).
        -- do 3 eexists. split; [reflexivity|]. cbn [trace clock next_handle cached_client].
           split; [reflexivity|]. cbn [http_requests sleeps length list_sum fold_right].
           repeat split; lia.
        -- apply (Hstep (EvHttpGet service (Replied st body))); try reflexivity.
           left; reflexivity.
      * apply (Hstep (EvHttpGet service (Replied st body))); try reflexivity.
        left; reflexivity.
    + destruct (a <? n - 1) eqn:Hlt.
      * apply (Hstep (EvHttpGet service HttpTimeout)); try reflexivity.
        right. split; reflexivity.
      * apply (Hstep (EvHttpGet service HttpTimeout)); try reflexivity.
        left; reflexivity.
    + do 3 eexists. split; [reflexivity|]. cbn [trace clock next_handle cached_client].
      split; [reflexivity|]. cbn [http_requests sleeps length list_sum fold_right].
      repeat split; lia.
    + do 3 eexists. split; [reflexivity|]. cbn [trace clock next_handle cached_client].
      split; [reflexivity|]. cbn [http_requests sleeps length list_sum fold_right].
      repeat split; lia.
Qed.

Lemma services_loop_bounds (env : Environment) (services : list string) :
  forall w,
  exists out w' evs,
    for_loop services (PublicIp.service_body env 3) tt w = (Ret out, w') /\
    trace w' = trace w ++ evs /\
    length (http_requests evs) <= 3 * length services /\
    list_sum (sleeps evs) <= 3 * length services /\
    clock w' = clock w + length (http_requests evs) /\
    next_handle w' = next_handle w /\
    cached_client w' = cached_client w.
Proof.
  induction services as [|s rest IH]; intros w.
  - exists (Finished tt), w, []. cbn. repeat split; try trace_eq; lia.
  - cbn [for_loop]. unfold PublicIp.service_body at 1. unfold bind at 1 2.
    destruct (try_service_bounds env 3 s (range 3) w)
      as (out1 & w1 & evs1 & Hrun1 & Htr1 & Hreq1 & Hsl1 & Hck1 & Hnh1 & Hc1).
    rewrite Hrun1. cbn in Hreq1, Hsl1.
    destruct out1 as [l|ip]; unfold ret.
    + destruct (IH w1) as (out & w' & evs & Hrun & Htr & Hreq & Hsl & Hck & Hnh & Hc).
      exists out, w', (evs1 ++ evs). split; [exact Hrun|].
      split; [rewrite Htr, Htr1; trace_eq|].
      rewrite http_requests_app, sleeps_app, list_sum_app, length_app.
      cbn [length]. repeat split; try congruence; lia.
    + exists (Returned ip), w1, evs1. cbn [length].
      repeat split; try assumption; lia.
Qed.

(** X2.  One call of the probe of [public_ip.py] makes at most nine requests
    and sleeps at most nine seconds in all; it consumes one reply per
    request and leaves the store connection alone: no client is built and
    the cached client is the same afterwards. *)
Theorem X2_probe_is_bounded (env : Environment) (w : World) :
  exists r w' evs,
    PublicIp.get_public_ip env 3 w = (Ret r, w') /\
    trace w' = trace w ++ evs /\
    length (http_requests evs) <= 9 /\
    list_sum (sleeps evs) <= 9 /\
    clock w' = clock w + length (http_requests evs) /\
    next_handle w' = next_handle w /\
    cached_client w' = cached_client w.
Proof.
  unfold PublicIp.get_public_ip, bind.
  destruct (services_loop_bounds env PublicIp.ip_services w)
    as (out & w' & evs & Hrun & Htr & Hreq & Hsl & Hck & Hnh & Hc).
  rewrite Hrun. cbn in Hreq, Hsl.
  destruct out as [l|ip]; unfold ret;
    do 3 eexists; (split; [reflexivity|]); repeat split; eassumption.
Qed.

(** ** What the address check lets through *)

Lemma split_length (sep : ascii) (s : string) :
  length (Py.split sep s) = S (occurrences sep s).
Proof.
  induction s as [|c rest IH]; [reflexivity|].
  cbn [Py.split occurrences].
  destruct (Ascii.eqb c sep).
  - cbn. rewrite IH. reflexivity.
  - destruct (Py.split sep rest) as [|field fields]; [discriminate IH|].
    cbn in IH |- *. exact IH.
Qed.

Lemma lstrip_starts_clean (s : string) : starts_clean (Py.lstrip s).
Proof.
  induction s as [|c rest IH]; [exact I|].
  cbn [Py.lstrip]. destruct (Py.is_space c) eqn:Hc; [exact IH|exact Hc].
Qed.

Lemma lstrip_fixed (s : string) : starts_clean s -> Py.lstrip s = s.
Proof. destruct s as [|c rest]; [reflexivity|]. cbn. intros ->. reflexivity. Qed.

Lemma rstrip_starts_clean (s : string) : starts_clean s -> starts_clean (Py.rstrip s).
Proof.
  destruct s as [|c rest]; [intros _; exact I|].
  cbn [starts_clean Py.rstrip]. intros Hc.
  destruct (Py.rstrip rest); [rewrite Hc|]; exact Hc.
Qed.

Lemma rstrip_ends_clean (s : string) : ends_clean (Py.rstrip s).
Proof.
  induction s as [|c rest IH]; [exact I|].
  cbn [Py.rstrip].
  destruct (Py.rstrip rest) as [|c' r'] eqn:Hr.
  - destruct (Py.is_space c) eqn:Hc; [exact I|exact Hc].
  - exact IH.
Qed.

Lemma rstrip_idempotent (s : string) : Py.rstrip (Py.rstrip s) = Py.rstrip s.
Proof.
  induction s as [|c rest IH]; [reflexivity|].
  cbn [Py.rstrip].
  destruct (Py.rstrip rest) as [|c' r'] eqn:Hr.
  - destruct (Py.is_space c) eqn:Hc; [reflexivity|].
    cbn. rewrite Hc. reflexivity.
  - cbn [Py.rstrip]. cbn [Py.rstrip] in IH. rewrite IH. reflexivity.
Qed.

Lemma strip_idempotent (s : string) : Py.strip (Py.strip s) = Py.strip s.
Proof.
  unfold Py.strip.
  rewrite (lstrip_fixed (Py.rstrip (Py.lstrip s))).
  - apply rstrip_idempotent.
  - apply rstrip_starts_clean, lstrip_starts_clean.
Qed.

(** X3.  The check of [public_ip.py] accepts a body exactly when, once
    stripped, it holds three dots: the test for emptiness adds nothing, and
    neither digits nor the size of the fields are looked at.  An address the
    probe returns therefore holds exactly three dots, and it is stripped:
    stripping it again changes nothing and it neither begins nor ends with
    white space. *)
Theorem X3_accepted_addresses (env : Environment) (n : nat) :
  (forall body,
      valid_address body = true <-> occurrences "."%char (Py.strip body) = 3) /\
  (forall w w' ip,
      PublicIp.get_public_ip env n w = (Ret (Some ip), w') ->
      occurrences "."%char ip = 3 /\
      Py.strip ip = ip /\ starts_clean ip /\ ends_clean ip).
Proof.
  assert (Hiff : forall body,
             valid_address body = true <-> occurrences "."%char (Py.strip body) = 3).
  { intros body. unfold valid_address. rewrite split_length.
    split.
    - intros H. apply andb_prop in H. destruct H as [_ H].
      apply Nat.eqb_eq in H. lia.
    - intros H. rewrite H. rewrite andb_true_r.
      destruct (Py.strip body); [discriminate H|reflexivity]. }
  split; [exact Hiff|].
  intros w w' ip Hrun.
  destruct (get_public_ip_spec env n w)
    as (r & w1 & evs & Hrun1 & _ & _ & _ & _ & Hr).
  rewrite Hrun in Hrun1. injection Hrun1 as <- <-.
  destruct Hr as (pre & service & body & _ & _ & -> & Hv & _).
  split; [apply Hiff; exact Hv|].
  split; [apply strip_idempotent|].
  split.
  - unfold Py.strip. apply rstrip_starts_clean, lstrip_starts_clean.
  - unfold Py.strip. apply rstrip_ends_clean.
Qed.

(** X3 at work: four fields of letters pass, an IPv6 address does not. *)
Lemma X3_witness :
  let w' := snd (PublicIp.get_public_ip env_healthy 3 initial_world) in
  PublicIp.get_public_ip env_healthy 3 initial_world = (Ret (Some "203.0.113.7"), w') /\
  (valid_address " a.b.c.d " = true <-> occurrences "."%char (Py.strip " a.b.c.d ") = 3) /\
  (valid_address "2001:db8::1" = true <-> occurrences "."%char (Py.strip "2001:db8::1") = 3) /\
  occurrences "."%char "203.0.113.7" = 3 /\
  Py.strip "203.0.113.7" = "203.0.113.7" /\
  starts_clean "203.0.113.7" /\ ends_clean "203.0.113.7".
Proof.
  intros w'.
  assert (H1 : PublicIp.get_public_ip env_healthy 3 initial_world
               = (Ret (Some "203.0.113.7"), w')) by (vm_compute; reflexivity).
  destruct (X3_accepted_addresses env_healthy 3) as (Hiff & Hret).
  split; [exact H1|]. split; [apply Hiff|]. split; [apply Hiff|].
  exact (Hret initial_world w' "203.0.113.7" H1).
Defined.

(** ** The probe and the object of whatsmyip.py *)

Lemma monitor_services_loop (env : Environment) (services : list string) :
  forall w,
  exists out w' evs,
    for_loop services
      (fun service (_ : unit) =>
         try_except
           (response <- requests_get env service 5 ;;
            if status_code response =? 200 then
              let ip := Py.strip (text response) in
              if Py.str_truthy ip then ret (Return ip) else ret (Next tt)
            else ret (Next tt))
           (fun e => if is_Exception e then ret (Next tt) else raise e))
      tt w = (Ret out, w') /\
    trace w' = trace w ++ evs /\
    cached_client w' = cached_client w /\
    next_handle w' = next_handle w /\
    (exists k, k <= length services /\ length evs = k /\
               http_requests evs = firstn k services /\
               clock w' = clock w + k /\
               (forall l, out = Finished l -> k = length services)) /\
    match out with
    | Returned ip =>
        exists pre service body,
          evs = pre ++ [EvHttpGet service (Replied 200 body)] /\
          ip = Py.strip body /\ ip <> "" /\
          existsb monitor_accepts_event pre = false
    | Finished _ => existsb monitor_accepts_event evs = false
    end.
Proof.
  induction services as [|s rest IH]; intros w.
  - exists (Finished tt), w, []. cbn. repeat split; try trace_eq.
    exists 0. cbn. repeat split; lia.
  - cbn [for_loop]. destruct w as [c nh t tr]. run_monad.
    assert (Hnext : forall reply,
              monitor_accepts reply = false ->
              exists out w' evs,
                for_loop rest
                  (fun service (_ : unit) =>
                     try_except
                       (response <- requests_get env service 5 ;;
                        if status_code response =? 200 then
                          let ip := Py.strip (text response) in
                          if Py.str_truthy ip then ret (Return ip) else ret (Next tt)
                        else ret (Next tt))
                       (fun e => if is_Exception e then ret (Next tt) else raise e))
                  tt (mkWorld c nh (S t) (tr ++ [EvHttpGet s reply])) = (Ret out, w') /\
                trace w' = tr ++ evs /\
                cached_client w' = c /\
                next_handle w' = nh /\
                (exists k, k <= S (length rest) /\ length evs = k /\
                           http_requests evs = firstn k (s :: rest) /\
                           clock w' = t + k /\
                           (forall l, out = Finished l -> k = S (length rest))) /\
                match out with
                | Returned ip =>
                    exists pre service body,
                      evs = pre ++ [EvHttpGet service (Replied 200 body)] /\
                      ip = Py.strip body /\ ip <> "" /\
                      existsb monitor_accepts_event pre = false
                | Finished _ => existsb monitor_accepts_event evs = false
                end).
    { intros reply Hrej.
      destruct (IH (mkWorld c nh (S t) (tr ++ [EvHttpGet s reply])))
        as (out & w' & evs & Hrun & Htr & Hc & Hnh & (k & Hk & Hlen & Hreq & Hck & Hfin) & Hout).
      exists out, w', (EvHttpGet s reply :: evs).
      split; [exact Hrun|]. cbn [trace cached_client next_handle clock] in *.
      split; [rewrite Htr; trace_eq|]. split; [exact Hc|]. split; [exact Hnh|].
      split.
      - exists (S k). cbn. rewrite Hreq, Hlen. repeat split; try lia.
        intros l Hl. rewrite (Hfin l Hl). reflexivity.
      - destruct out as [l|ip].
        + cbn. rewrite Hrej. exact Hout.
        + destruct Hout as (pre & service & body & -> & Hip & Hne & Hpre).
          exists (EvHttpGet s reply :: pre), service, body.
          repeat split; try assumption. cbn. rewrite Hrej. exact Hpre. }
    destruct (http_reply env t s) as [st body| | |] eqn:Hreply; run_monad.
    + destruct (st =? 200) eqn:Hst; run_monad.
      * apply Nat.eqb_eq in Hst. subst st.
        destruct (Py.str_truthy (Py.strip body)) eqn:Htruthy.
        -- do 3 eexists. split; [reflexivity|]. cbn.
           split; [trace_eq|]. repeat split.
           ++ exists 1. cbn. repeat split; try lia. discriminate.
           ++ exists [], s, body. repeat split.
              intros Hempty. rewrite Hempty in Htruthy. discriminate.
        -- apply (Hnext (Replied 200 body)). cbn. exact Htruthy.
      * apply (Hnext (Replied st body)). cbn. rewrite Hst. reflexivity.
    + apply (Hnext HttpTimeout). reflexivity.
    + apply (Hnext HttpRequestError). reflexivity.
    + apply (Hnext HttpUnexpected). reflexivity.
Qed.

Lemma monitor_probe_spec (env : Environment) (w : World) :
  exists r w' evs,
    IPMonitor.get_public_ip env w = (Ret r, w') /\
    trace w' = trace w ++ evs /\
    cached_client w' = cached_client w /\
    next_handle w' = next_handle w /\
    (exists k, k <= 3 /\ length evs = k /\
               http_requests evs = firstn k IPMonitor.ip_services /\
               clock w' = clock w + k /\
               (r = None -> k = 3)) /\
    match r with
    | Some ip =>
        exists pre service body,
          evs = pre ++ [EvHttpGet service (Replied 200 body)] /\
          ip = Py.strip body /\ ip <> "" /\
          existsb monitor_accepts_event pre = false
    | None => existsb monitor_accepts_event evs = false
    end.
Proof.
  unfold IPMonitor.get_public_ip. unfold bind at 1.
  destruct (monitor_services_loop env IPMonitor.ip_services w)
    as (out & w' & evs & Hrun & Htr & Hc & Hnh & (k & Hk & Hlen & Hreq & Hck & Hfin) & Hout).
  cbv zeta in Hrun. rewrite Hrun. cbn in Hk.
  destruct out as [l|ip]; unfold ret.
  - exists None, w', evs. repeat split; try assumption.
    exists k. repeat split; try assumption. intros _. exact (Hfin l eq_refl).
  - exists (Some ip), w', evs. repeat split; try assumption.
    exists k. repeat split; try assumption. discriminate.
Qed.

(** X4.  The probe of [IPMonitor] never raises.  It asks each service at
    most once, in the order of the list, and stops at the first reply with
    status 200 whose stripped body is not empty, which it returns; it never
    sleeps, never retries and does not touch the store.  It returns [None]
    only after all three services were asked and none gave such a reply. *)
Theorem X4_monitor_probe (env : Environment) (w : World) :
  exists r w' evs,
    IPMonitor.get_public_ip env w = (Ret r, w') /\
    trace w' = trace w ++ evs /\
    (exists k, k <= 3 /\ length evs = k /\
               http_requests evs = firstn k IPMonitor.ip_services /\
               (r = None -> k = 3)) /\
    sleeps evs = [] /\ store_events evs = [] /\
    cached_client w' = cached_client w /\
    match r with
    | Some ip =>
        exists pre service body,
          evs = pre ++ [EvHttpGet service (Replied 200 body)] /\
          ip = Py.strip body /\ ip <> "" /\
          existsb monitor_accepts_event pre = false
    | None => existsb monitor_accepts_event evs = false
    end.
Proof.
  destruct (monitor_probe_spec env w)
    as (r & w' & evs & Hrun & Htr & Hc & _ & (k & Hk & Hlen & Hreq & _ & Hnone) & Hr).
  exists r, w', evs. split; [exact Hrun|]. split; [exact Htr|].
  split; [exists k; repeat split; assumption|].
  assert (Honly : forall l : list Event,
            length (http_requests l) = length l ->
            sleeps l = [] /\ store_events l = []).
  { induction l as [|ev l IHl]; [split; reflexivity|].
    destruct ev; cbn; intros Hl;
      try (exfalso;
           assert (Hle : length (http_requests l) <= length l)
             by (clear; induction l as [|e l IHl]; [cbn; lia|destruct e; cbn; lia]);
           lia).
    apply IHl. lia. }
  destruct (Honly evs) as [Hs Hse].
  { rewrite Hreq, Hlen. apply firstn_length_le. cbn. exact Hk. }
  repeat split; assumption.
Qed.







(** ** The loop of public_ip.py over many iterations *)

Lemma not_an_exception (e : Exn) : is_Exception e = false -> e = KeyboardInterrupt.
Proof. destruct e; cbn; congruence. Qed.

Lemma run_loop_spec (env : Environment) (faults : list PublicIp.Fault) :
  forall it c last rc w,
  exists r s',
    PublicIp.run_loop env faults (PublicIp.mkMain (PublicIp.mkLocals it c last rc) w)
      = (r, s') /\
    match r with
    | Ret ends =>
        length ends = length faults /\
        PublicIp.iteration (PublicIp.locals s') = it + length faults
    | Raise e => e = KeyboardInterrupt /\ forallb ordinary_fault faults = false
    end.
Proof.
  induction faults as [|f rest IH]; intros it c last rc w.
  - do 2 eexists. split; [reflexivity|]. cbn. split; [reflexivity|lia].
  - cbn [PublicIp.run_loop]. unfold bind at 1.
    destruct (loop_iteration_spec env f it c last rc w)
      as (r & s1 & evs & Hrun & _ & Hit & Hr).
    rewrite Hrun. destruct r as [e|e].
    + destruct s1 as [[it1 c1 last1 rc1] w1]. cbn in Hit. subst it1.
      destruct (IH (it + 1) c1 last1 rc1 w1) as (r & s' & Hrest & Hr').
      unfold bind at 1. rewrite Hrest.
      destruct r as [ends|e'].
      * exists (Ret (e :: ends)), s'. split; [reflexivity|].
        destruct Hr' as [Hlen Hit']. cbn. split; lia.
      * exists (Raise e'), s'. split; [reflexivity|].
        destruct Hr' as [He Hord]. split; [exact He|].
        cbn. rewrite Hord. apply andb_false_r.
    + exists (Raise e), s1. split; [reflexivity|].
      destruct Hr as (Hexn & Hf & _).
      split; [apply not_an_exception; exact Hexn|].
      cbn. destruct Hf as [-> | ->]; cbn; rewrite Hexn; reflexivity.
Qed.

(** X7.  No failure that is an [Exception] ends the loop of
    [public_ip.py]: whatever the lookups and the store do, [run_loop] goes
    through every iteration it is given, counting them in [iteration], and
    stops early only on an interrupt that is not an [Exception].  [main]
    itself never raises: it absorbs that interrupt too. *)
Theorem X7_loop_survives_exceptions (env : Environment)
    (faults : list PublicIp.Fault) (s : PublicIp.MainState) (w : World) :
  (let '(r, s') := PublicIp.run_loop env faults s in
   match r with
   | Ret ends =>
       length ends = length faults /\
       PublicIp.iteration (PublicIp.locals s')
         = PublicIp.iteration (PublicIp.locals s) + length faults
   | Raise e => e = KeyboardInterrupt /\ forallb ordinary_fault faults = false
   end) /\
  (exists ends w',
      PublicIp.main env faults w = (Ret ends, w') /\
      (forallb ordinary_fault faults = true -> length ends = length faults)).
Proof.
  split.
  - destruct s as [[it c last rc] w0].
    destruct (run_loop_spec env faults it c last rc w0) as (r & s' & Hrun & Hr).
    rewrite Hrun. exact Hr.
  - unfold PublicIp.main. unfold bind at 1.
    destruct (get_redis_client_returns env true w) as (rc & w1 & evg & Hg & _).
    rewrite Hg. unfold try_except.
    destruct (run_loop_spec env faults 0 0 None rc w1) as (r & s' & Hrun & Hr).
    rewrite Hrun. destruct r as [ends|e].
    + exists ends, (PublicIp.world s'). split; [reflexivity|].
      intros _. apply Hr.
    + destruct Hr as [-> Hord]. exists [], (PublicIp.world s').
      split; [reflexivity|]. intros Hall. congruence.
Qed.

(** X7 at work: the lookups fail, and one iteration raises as well. *)
Lemma X7_witness :
  let faults := [PublicIp.NoFault; PublicIp.FaultInProbe OtherException] in
  forallb ordinary_fault faults = true /\
  exists ends w',
    PublicIp.main env_all_down faults initial_world = (Ret ends, w') /\
    length ends = length faults.
Proof.
  intros faults.
  assert (H : forallb ordinary_fault faults = true) by reflexivity.
  split; [exact H|].
  destruct (proj2 (X7_loop_survives_exceptions env_all_down faults start initial_world))
    as (ends & w' & Hmain & Hlen).
  exists ends, w'. split; [exact Hmain|exact (Hlen H)].
Defined.

(** ** The backoff schedule *)

Lemma faulted_iteration (env : Environment) (e : Exn)
    (it c : nat) (last : option string) (rc : option handle) (w : World) :
  is_Exception e = true ->
  c + 1 < 10 ->
  PublicIp.loop_iteration env (PublicIp.FaultInProbe e)
    (PublicIp.mkMain (PublicIp.mkLocals it c last rc) w)
  = (Ret (PublicIp.BackedOff (backoff_time (c + 1))),
     PublicIp.mkMain (PublicIp.mkLocals (it + 1) (c + 1) last rc)
       (emit (EvSleep (backoff_time (c + 1))) w)).
Proof.
  intros Hexn Hlt.
  unfold PublicIp.loop_iteration, PublicIp.iteration_body, PublicIp.on_exception.
  run_main. rewrite Hexn. run_main.
  assert (Hesc : (10 <=? c + 1) = false) by (apply Nat.leb_gt; exact Hlt).
  rewrite Hesc. reflexivity.
Qed.

Lemma backoff_run (env : Environment) (e : Exn) (last : option string)
    (rc : option handle) (k : nat) :
  is_Exception e = true ->
  forall it c w,
  c + k < 10 ->
  exists w',
    PublicIp.run_loop env (repeat (PublicIp.FaultInProbe e) k)
      (PublicIp.mkMain (PublicIp.mkLocals it c last rc) w)
    = (Ret (map (fun j => PublicIp.BackedOff (backoff_time j)) (seq (c + 1) k)),
       PublicIp.mkMain (PublicIp.mkLocals (it + k) (c + k) last rc) w') /\
    trace w' = trace w ++ map (fun j => EvSleep (backoff_time j)) (seq (c + 1) k) /\
    clock w' = clock w /\ cached_client w' = cached_client w.
Proof.
  intros Hexn. induction k as [|k IH]; intros it c w Hlt.
  - exists w. cbn. rewrite !Nat.add_0_r. repeat split. symmetry; apply app_nil_r.
  - cbn [repeat PublicIp.run_loop]. unfold bind at 1.
    rewrite faulted_iteration by (try assumption; lia).
    destruct (IH (it + 1) (c + 1) (emit (EvSleep (backoff_time (c + 1))) w))
      as (w' & Hrun & Htr & Hck & Hc); [lia|].
    unfold bind at 1. rewrite Hrun. unfold ret.
    exists w'. cbn [seq map].
    replace (it + 1 + k) with (it + S k) by lia.
    replace (c + 1 + k) with (c + S k) by lia.
    replace (S (c + 1)) with (c + 1 + 1) by lia.
    split; [reflexivity|].
    split; [rewrite Htr; destruct w; cbn; rewrite <- app_assoc; reflexivity|].
    split; [rewrite Hck; destruct w; reflexivity|].
    rewrite Hc. destruct w; reflexivity.
Qed.

Lemma pow2_lower (j : nat) : 1 <= j -> 2 <= 2 ^ j.
Proof.
  intros Hj. destruct j as [|j]; [lia|].
  rewrite Nat.pow_succ_r'. pose proof (Nat.pow_nonzero 2 j). lia.
Qed.

(** X8.  The schedule of the [except] block.  While the counter stays below
    ten, consecutive exceptions are answered by sleeps of
    [min (2 ^ j) 60] seconds for the successive counter values [j], and
    nothing else happens: no request, no store event, no change to the
    cached address or the client.  Each of these sleeps lasts between 2 and
    60 seconds, they never get shorter, and from the sixth on they are 60
    seconds. *)
Theorem X8_backoff_schedule (env : Environment) (e : Exn) (last : option string)
    (rc : option handle) (k it c : nat) (w : World) :
  is_Exception e = true ->
  c + k < 10 ->
  (exists w',
      PublicIp.run_loop env (repeat (PublicIp.FaultInProbe e) k)
        (PublicIp.mkMain (PublicIp.mkLocals it c last rc) w)
      = (Ret (map (fun j => PublicIp.BackedOff (backoff_time j)) (seq (c + 1) k)),
         PublicIp.mkMain (PublicIp.mkLocals (it + k) (c + k) last rc) w') /\
      trace w' = trace w ++ map (fun j => EvSleep (backoff_time j)) (seq (c + 1) k) /\
      clock w' = clock w /\ cached_client w' = cached_client w) /\
  (forall j, 1 <= j ->
      2 <= backoff_time j <= 60 /\
      backoff_time j <= backoff_time (S j) /\
      (6 <= j -> backoff_time j = 60)).
Proof.
  intros Hexn Hlt. split; [apply backoff_run; assumption|].
  intros j Hj. unfold backoff_time.
  pose proof (pow2_lower j Hj) as Hlow.
  assert (Hmono : 2 ^ j <= 2 ^ S j) by (apply Nat.pow_le_mono_r; lia).
  repeat split; try lia.
  intros H6.
  assert (H64 : 2 ^ 6 <= 2 ^ j) by (apply Nat.pow_le_mono_r; lia).
  change (2 ^ 6) with 64 in H64. lia.
Qed.

(** X8 at work: nine exceptions in a row from a counter at 0. *)
Lemma X8_witness :
  is_Exception OtherException = true /\ 0 + 9 < 10 /\
  (exists w',
      PublicIp.run_loop env_all_down (repeat (PublicIp.FaultInProbe OtherException) 9)
        (PublicIp.mkMain (PublicIp.mkLocals 0 0 None None) initial_world)
      = (Ret (map (fun j => PublicIp.BackedOff (backoff_time j)) (seq (0 + 1) 9)),
         PublicIp.mkMain (PublicIp.mkLocals (0 + 9) (0 + 9) None None) w') /\
      trace w' = trace initial_world
                 ++ map (fun j => EvSleep (backoff_time j)) (seq (0 + 1) 9) /\
      clock w' = clock initial_world /\
      cached_client w' = cached_client initial_world) /\
  map backoff_time (seq 1 9) = [2; 4; 8; 16; 32; 60; 60; 60; 60].
Proof.
  assert (H1 : is_Exception OtherException = true) by reflexivity.
  assert (H2 : 0 + 9 < 10) by lia.
  split; [exact H1|]. split; [exact H2|].
  split; [|vm_compute; reflexivity].
  exact (proj1 (X8_backoff_schedule env_all_down OtherException None None 9 0 0
                  initial_world H1 H2)).
Defined.

(** ** The client the loop holds *)

Lemma client_kept_until_cooldown (env : Environment) (faults : list PublicIp.Fault) :
  forall it c last rc w ends s',
  PublicIp.run_loop env faults (PublicIp.mkMain (PublicIp.mkLocals it c last rc) w)
    = (Ret ends, s') ->
  existsb is_cooled_down ends = false ->
  PublicIp.redis_client (PublicIp.locals s') = rc.
Proof.
  induction faults as [|f rest IH]; intros it c last rc w ends s' Hrun Hno.
  - cbn in Hrun. injection Hrun as <- <-. reflexivity.
  - cbn [PublicIp.run_loop] in Hrun. unfold bind at 1 in Hrun.
    destruct (loop_iteration_spec env f it c last rc w)
      as (r & s1 & evs & Hrun1 & _ & _ & Hr).
    rewrite Hrun1 in Hrun. destruct r as [e|e]; [|discriminate].
    unfold bind at 1 in Hrun.
    destruct (PublicIp.run_loop env rest s1) as [[ends1|e1] s2] eqn:Hrest;
      [|discriminate].
    unfold ret in Hrun. injection Hrun as <- <-.
    cbn in Hno. apply orb_false_elim in Hno. destruct Hno as [He Hrest_no].
    destruct s1 as [[it1 c1 last1 rc1] w1].
    assert (Hrc : rc1 = rc).
    { destruct e; cbn in He; try discriminate; cbn in Hr; intuition. }
    subst rc1. exact (IH it1 c1 last1 rc w1 ends1 s2 Hrest Hrest_no).
Qed.

(** X9.  The loop of [public_ip.py] changes the client it passes to the
    pipeline in one place only, the cooldown: over any run in which no
    iteration ends in a cooldown it holds the same client at the end as at
    the start, even when the pipeline has meanwhile replaced the cached
    client by a new one; after an iteration that ends in a cooldown it holds
    the cached client. *)
Theorem X9_loop_client_changes_only_in_cooldown (env : Environment) :
  (forall faults s ends s',
      PublicIp.run_loop env faults s = (Ret ends, s') ->
      existsb is_cooled_down ends = false ->
      PublicIp.redis_client (PublicIp.locals s')
        = PublicIp.redis_client (PublicIp.locals s)) /\
  (forall f s s',
      PublicIp.loop_iteration env f s = (Ret PublicIp.CooledDown, s') ->
      PublicIp.redis_client (PublicIp.locals s')
        = cached_client (PublicIp.world s')).
Proof.
  split.
  - intros faults [[it c last rc] w] ends s' Hrun Hno.
    exact (client_kept_until_cooldown env faults it c last rc w ends s' Hrun Hno).
  - intros f [[it c last rc] w] s' Hrun.
    destruct (loop_iteration_spec env f it c last rc w)
      as (r & s1 & evs & Hrun1 & _ & _ & Hr).
    rewrite Hrun in Hrun1. injection Hrun1 as <- <-. apply Hr.
Qed.

(** X9 at work.  The loop holds client 0, whose connection is dead.  The
    first publish replaces the cached client by client 1 and succeeds; the
    loop still holds client 0 afterwards.  After the tenth exception in a row
    the cooldown hands it the cached client. *)
Lemma X9_witness :
  let s := PublicIp.mkMain (PublicIp.mkLocals 0 0 None (Some 0)) world_with_client_0 in
  let s' := snd (PublicIp.run_loop env_dead_handle [PublicIp.NoFault] s) in
  let t := PublicIp.mkMain (PublicIp.mkLocals 9 9 None (Some 0)) world_with_client_0 in
  let t' := snd (PublicIp.loop_iteration env_dead_handle
                   (PublicIp.FaultInProbe OtherException) t) in
  (PublicIp.run_loop env_dead_handle [PublicIp.NoFault] s
     = (Ret [PublicIp.Published "203.0.113.7"], s') /\
   existsb is_cooled_down [PublicIp.Published "203.0.113.7"] = false /\
   PublicIp.redis_client (PublicIp.locals s') = PublicIp.redis_client (PublicIp.locals s) /\
   PublicIp.redis_client (PublicIp.locals s') = Some 0 /\
   cached_client (PublicIp.world s') = Some 1) /\
  (PublicIp.loop_iteration env_dead_handle (PublicIp.FaultInProbe OtherException) t
     = (Ret PublicIp.CooledDown, t') /\
   PublicIp.redis_client (PublicIp.locals t') = cached_client (PublicIp.world t') /\
   PublicIp.redis_client (PublicIp.locals t') = Some 1).
Proof.
  intros s s' t t'.
  assert (H1 : PublicIp.run_loop env_dead_handle [PublicIp.NoFault] s
               = (Ret [PublicIp.Published "203.0.113.7"], s'))
    by (vm_compute; reflexivity).
  assert (H2 : existsb is_cooled_down [PublicIp.Published "203.0.113.7"] = false)
    by reflexivity.
  assert (H3 : PublicIp.loop_iteration env_dead_handle
                 (PublicIp.FaultInProbe OtherException) t
               = (Ret PublicIp.CooledDown, t')) by (vm_compute; reflexivity).
  destruct (X9_loop_client_changes_only_in_cooldown env_dead_handle) as (Hkeep & Hcool).
  split.
  - split; [exact H1|]. split; [exact H2|].
    split; [exact (Hkeep [PublicIp.NoFault] s _ s' H1 H2)|].
    split; vm_compute; reflexivity.
  - split; [exact H3|].
    split; [exact (Hcool _ t t' H3)|]. vm_compute; reflexivity.
Defined.

(** ** Publishing without a client in hand *)

(** X10.  When the caller has no client (the connection at start-up failed,
    or the store was not yet up), the pipeline asks for one itself.  With
    nothing cached and a configured store that answers, the publish builds
    the first client, pings it, caches it and writes once.  With a cached
    client that answers, the publish pings it and writes once over it.  In
    both cases the result is [True] although the caller passed [None]. *)
Theorem X10_publish_connects_lazily (env : Environment) (key value : string) (w : World) :
  (cached_client w = None ->
   store_configured env ->
   ping_reply env (clock w) (next_handle w) = RedisOk ->
   set_reply env (S (clock w)) (next_handle w) key value = RedisOk ->
   exists w',
     PublicIp.post_with_retry env key value None 3 w = (Ret true, w') /\
     cached_client w' = Some (next_handle w) /\
     trace w' = trace w ++
       [ EvNewClient (next_handle w);
         EvPing (next_handle w) RedisOk;
         EvSet (next_handle w) key value RedisOk ]) /\
  (forall h,
   cached_client w = Some h ->
   ping_reply env (clock w) h = RedisOk ->
   set_reply env (S (clock w)) h key value = RedisOk ->
   exists w',
     PublicIp.post_with_retry env key value None 3 w = (Ret true, w') /\
     cached_client w' = Some h /\
     trace w' = trace w ++ [ EvPing h RedisOk; EvSet h key value RedisOk ]).
Proof.
  split.
  - intros Hc Hconf Hping Hset.
    unfold PublicIp.post_with_retry. cbn [Py.is_some negb].
    unfold bind at 1. rewrite fresh_connect by assumption.
    cbn [Py.is_some negb]. unfold bind at 1. unfold PublicIp.write_loop.
    change (range 3) with [0; 1; 2]. cbn [for_loop]. unfold bind at 1.
    rewrite write_attempt_acknowledged by (destruct w; exact Hset).
    eexists. split; [reflexivity|]. destruct w as [c nh t tr]. cbn.
    split; [reflexivity|]. repeat rewrite <- app_assoc. reflexivity.
  - intros h Hc Hping Hset.
    unfold PublicIp.post_with_retry. cbn [Py.is_some negb].
    unfold bind at 1. rewrite (cached_client_reused env true h w Hc Hping).
    cbn [Py.is_some negb]. unfold bind at 1. unfold PublicIp.write_loop.
    change (range 3) with [0; 1; 2]. cbn [for_loop]. unfold bind at 1.
    rewrite write_attempt_acknowledged by (destruct w; exact Hset).
    eexists. split; [reflexivity|]. destruct w as [c nh t tr]. cbn in Hc |- *.
    split; [exact Hc|]. repeat rewrite <- app_assoc. reflexivity.
Qed.

(** X10 at work: the first publish of a process, then one with client 0
    cached. *)
Lemma X10_witness :
  let k := PublicIp.key in
  let v := "203.0.113.7" in
  (cached_client initial_world = None /\
   store_configured env_healthy /\
   ping_reply env_healthy (clock initial_world) (next_handle initial_world) = RedisOk /\
   set_reply env_healthy (S (clock initial_world)) (next_handle initial_world) k v
     = RedisOk /\
   exists w',
     PublicIp.post_with_retry env_healthy k v None 3 initial_world = (Ret true, w') /\
     cached_client w' = Some (next_handle initial_world) /\
     trace w' = trace initial_world ++
       [ EvNewClient (next_handle initial_world);
         EvPing (next_handle initial_world) RedisOk;
         EvSet (next_handle initial_world) k v RedisOk ]) /\
  (cached_client world_with_client_0 = Some 0 /\
   ping_reply env_healthy (clock world_with_client_0) 0 = RedisOk /\
   set_reply env_healthy (S (clock world_with_client_0)) 0 k v = RedisOk /\
   exists w',
     PublicIp.post_with_retry env_healthy k v None 3 world_with_client_0 = (Ret true, w') /\
     cached_client w' = Some 0 /\
     trace w' = trace world_with_client_0 ++ [ EvPing 0 RedisOk; EvSet 0 k v RedisOk ]).
Proof.
  intros k v.
  assert (Hconf : store_configured env_healthy) by apply host_only_configured.
  split.
  - split; [reflexivity|]. split; [exact Hconf|]. do 2 (split; [reflexivity|]).
    exact (proj1 (X10_publish_connects_lazily env_healthy k v initial_world)
             eq_refl Hconf eq_refl eq_refl).
  - do 3 (split; [reflexivity|]).
    exact (proj2 (X10_publish_connects_lazily env_healthy k v world_with_client_0)
             0 eq_refl eq_refl eq_refl).
Defined.

(** ** show_world_timezones and the loop of scripts/app.py *)

Lemma cached_client_pinged_first (env : Environment) (retry : bool) (h : handle)
    (w : World) :
  cached_client w = Some h ->
  exists r w' rest,
    PublicIp.get_redis_client env retry w = (Ret r, w') /\
    trace w' = trace w ++ EvPing h (ping_reply env (clock w) h) :: rest.
Proof.
  intros Hc. destruct w as [c nh t tr]. cbn in Hc. subst c.
  unfold PublicIp.get_redis_client. run_monad.
  repeat (break_match; run_monad; try discriminate).
  all: do 3 eexists; split; [reflexivity|]; cbn;
       repeat rewrite <- app_assoc; cbn [app];
       first [reflexivity | rewrite Heqr; reflexivity].
Qed.

Lemma show_world_timezones_spec (env : Environment) (data : string) (w : World) :
  exists b w' evs,
    CurrentTime.show_world_timezones env data w = (Ret b, w') /\
    trace w' = trace w ++ evs /\
    http_requests evs = [] /\
    length (set_attempts evs) <= 3 /\
    (sleeps evs = [] \/ exists a, a < 2 /\ sleeps evs = [2 ^ a] /\ b = false) /\
    (b = true <-> store_writes evs = [(CurrentTime.key, data)]) /\
    (forall h, cached_client w = Some h ->
               exists rest, evs = EvPing h (ping_reply env (clock w) h) :: rest).
Proof.
  unfold CurrentTime.show_world_timezones, CurrentTime.get_redis_client,
    CurrentTime.post_to_redis.
  unfold bind at 1.
  destruct (get_redis_client_returns env true w)
    as (r & w1 & evg & Hg & Htrg & _ & Hsl & Hset & Hhttp & _).
  rewrite Hg.
  destruct (post_with_retry_spec env CurrentTime.key data r 3 w1)
    as (b & w' & evs & Hrun & Htr & Hh & Hn & _ & _ & Hsleep & Hb).
  exists b, w', (evg ++ evs). split; [exact Hrun|].
  split; [rewrite Htr, Htrg, app_assoc; reflexivity|].
  split; [rewrite http_requests_app, Hhttp, Hh; reflexivity|].
  split; [rewrite set_attempts_app, Hset; exact Hn|].
  split; [rewrite sleeps_app, Hsl; exact Hsleep|].
  split.
  - rewrite store_writes_app, (store_writes_no_sets _ Hset). cbn [app].
    split.
    + intros ->. destruct Hb as (pre & h & -> & Hpre).
      rewrite store_writes_app, Hpre. reflexivity.
    + intros Hw. destruct b; [reflexivity|]. rewrite Hb in Hw. discriminate.
  - intros h Hc.
    destruct (cached_client_pinged_first env true h w Hc) as (r2 & w2 & rest & Hg2 & Htr2).
    rewrite Hg in Hg2. injection Hg2 as <- <-.
    rewrite Htrg in Htr2. apply app_inv_head in Htr2. subst evg.
    exists (rest ++ evs). reflexivity.
Qed.

(** X11.  [show_world_timezones] of [scripts/current_time.py] never raises
    over the store: whatever the store answers it returns, having made at
    most three write attempts and slept at most once.  It publishes on every
    call, with no change detection: the store has received the record
    exactly when the pipeline reported success.  A cached client is pinged
    before anything is written, and when that client answers both the ping
    and the write, the call is that ping and that one write. *)
Theorem X11_show_world_timezones (env : Environment) (data : string) (w : World) :
  (exists b w' evs,
      CurrentTime.show_world_timezones env data w = (Ret b, w') /\
      trace w' = trace w ++ evs /\
      http_requests evs = [] /\
      length (set_attempts evs) <= 3 /\
      (sleeps evs = [] \/ exists a, a < 2 /\ sleeps evs = [2 ^ a] /\ b = false) /\
      (b = true <-> store_writes evs = [(CurrentTime.key, data)]) /\
      (forall h, cached_client w = Some h ->
                 exists rest, evs = EvPing h (ping_reply env (clock w) h) :: rest)) /\
  (forall h,
      cached_client w = Some h ->
      ping_reply env (clock w) h = RedisOk ->
      set_reply env (S (clock w)) h CurrentTime.key data = RedisOk ->
      exists w',
        CurrentTime.show_world_timezones env data w = (Ret true, w') /\
        cached_client w' = Some h /\
        trace w' = trace w ++ [ EvPing h RedisOk; EvSet h CurrentTime.key data RedisOk ]).
Proof.
  split; [apply show_world_timezones_spec|].
  intros h Hc Hping Hset.
  unfold CurrentTime.show_world_timezones, CurrentTime.get_redis_client,
    CurrentTime.post_to_redis.
  unfold bind at 1. rewrite (cached_client_reused env true h w Hc Hping).
  unfold PublicIp.post_with_retry. cbn [Py.is_some negb].
  unfold bind at 1. unfold ret at 1. cbn [Py.is_some negb].
  unfold bind at 1. unfold PublicIp.write_loop.
  change (range 3) with [0; 1; 2]. cbn [for_loop]. unfold bind at 1.
  rewrite write_attempt_acknowledged by (destruct w; exact Hset).
  eexists. split; [reflexivity|]. destruct w as [c nh t tr]. cbn in Hc |- *.
  split; [exact Hc|]. repeat rewrite <- app_assoc. reflexivity.
Qed.

(** X11 at work: client 0 is cached and the store answers. *)
Lemma X11_witness :
  let data := "2026-01-01T00:00:00+00:00" in
  let w := world_with_client_0 in
  cached_client w = Some 0 /\
  ping_reply env_healthy (clock w) 0 = RedisOk /\
  set_reply env_healthy (S (clock w)) 0 CurrentTime.key data = RedisOk /\
  (exists rest,
      trace (snd (CurrentTime.show_world_timezones env_healthy data w))
        = trace w ++ EvPing 0 (ping_reply env_healthy (clock w) 0) :: rest) /\
  exists w',
    CurrentTime.show_world_timezones env_healthy data w = (Ret true, w') /\
    cached_client w' = Some 0 /\
    trace w' = trace w ++ [ EvPing 0 RedisOk; EvSet 0 CurrentTime.key data RedisOk ].
Proof.
  intros data w.
  destruct (X11_show_world_timezones env_healthy data w) as (Hspec & Hok).
  do 3 (split; [reflexivity|]).
  split.
  - destruct Hspec as (b & w' & evs & Hrun & Htr & _ & _ & _ & _ & Hfirst).
    destruct (Hfirst 0 eq_refl) as (rest & ->).
    exists rest. rewrite Hrun. exact Htr.
  - exact (Hok 0 eq_refl eq_refl eq_refl).
Defined.



(** ** What the store has received, and what the loop remembers *)




